(** * Posture analysis engine (src/lib/posture-analysis-engine.ts)

    A shallow embedding of the class [PostureAnalysisEngine] and the
    properties its specification states about it.

    Numbers.  A JavaScript [number] is modelled as an exact rational [Q]:
    the thresholds, clamps and the affine formulas of the engine are read
    with exact arithmetic, and rounding is not modelled.  The only place
    where the engine could leave the finite numbers is a division by an
    array length; that division is checked, and a zero divisor ends the run
    with the fault [NotFinite] (IEEE would give NaN or an infinity there).

    Effects.  The engine mutates [this.frameHistory] and reads the host
    ([Date.now()], [Math.random()]).  A method is a function from the
    machine state to a result and a new machine state; the host is a pair of
    oracles indexed by the number of reads made so far, so two reads of the
    clock within one call may differ, as on a real host. *)

From Stdlib Require Import String QArith Qabs Qminmax Lqa ZArith Bool Lia List.
From Stdlib Require Import Sorted Permutation Qround.
Import ListNotations.

Local Open Scope Q_scope.

(** ** Comparisons and numeric helpers *)

Definition Qltb (x y : Q) : bool := negb (Qle_bool y x).

Notation "x <? y" := (Qltb x y) (at level 70, no associativity) : Q_scope.
Notation "x >? y" := (Qltb y x) (at level 70, no associativity) : Q_scope.
Notation "x <=? y" := (Qle_bool x y) (at level 70, no associativity) : Q_scope.

(** [Math.max], [Math.min], [Math.abs], [Math.pow(_, 2)]. *)
Definition Math_max (a b : Q) : Q := Qmax a b.
Definition Math_min (a b : Q) : Q := Qmin a b.
Definition Math_abs (a : Q) : Q := Qabs a.
Definition Math_pow2 (a : Q) : Q := a ^ 2.

(** An array length read as a number. *)
Definition len {A : Type} (l : list A) : Q := inject_Z (Z.of_nat (length l)).

(** ** Data model *)

Record PostureMetrics : Type := mkMetrics {
  neckAngle : Q;
  backCurvature : Q;
  shoulderAlignment : Q;
  hipAlignment : Q;
  kneeTracking : Q;
  squatDepth : Q;
  overallStability : Q
}.

Inductive IssueType : Type := critical | warning | minor | good.

Definition IssueType_eqb (a b : IssueType) : bool :=
  match a, b with
  | critical, critical | warning, warning | minor, minor | good, good => true
  | _, _ => false
  end.

Record PostureIssue : Type := mkIssue {
  type : IssueType;
  message : string;
  severity : Q;
  recommendation : string;
  timestamp : Z
}.

Record PostureAnalysis : Type := mkAnalysis {
  isGoodPosture : bool;
  overallScore : Q;
  issues : list PostureIssue;
  metrics : PostureMetrics;
  confidence : Q;
  recommendations : list string
}.

(** The [landmarks: unknown[]] argument: arbitrary JavaScript values. *)
#[local] Unset Elimination Schemes.
Inductive JsValue : Type :=
| JsUndefined
| JsNull
| JsBool (b : bool)
| JsNumber (q : Q)
| JsString (s : string)
| JsArray (items : list JsValue)
| JsObject (fields : list (string * JsValue)).
#[local] Set Elimination Schemes.

(** ** Machine state and the method monad *)

(** [frameHistory] is the private field of the engine instance;
    [clockReads] and [randomDraws] count the reads of the host made so
    far.  [stabilityWindow] is the other private field: it is initialised
    to 5 and never assigned. *)
Record Machine : Type := mkMachine {
  frameHistory : list PostureMetrics;
  clockReads : nat;
  randomDraws : nat
}.

Definition stabilityWindow : nat := 5.

(** [new PostureAnalysisEngine()] on a host that has been read [c] and [r]
    times already. *)
Definition newEngine (c r : nat) : Machine := mkMachine [] c r.

(** How a run can end without a value: a thrown [TypeError], or a division
    whose IEEE result is not a finite number. *)
Inductive fault : Type := TypeError | NotFinite.

Inductive result (A : Type) : Type :=
| Ok (a : A)
| Fault (f : fault).
Arguments Ok {A} a.
Arguments Fault {A} f.

Definition M (A : Type) : Type := Machine -> result (A * Machine).

Definition ret {A : Type} (a : A) : M A := fun s => Ok (a, s).

Definition bind {A B : Type} (m : M A) (k : A -> M B) : M B :=
  fun s => match m s with
           | Ok (a, s') => k a s'
           | Fault f => Fault f
           end.

Definition throw {A : Type} (f : fault) : M A := fun _ => Fault f.

Declare Scope js_scope.
Delimit Scope js_scope with js.
Notation "x <- m ;; k" := (bind m (fun x => k))
  (at level 61, m at next level, right associativity) : js_scope.
Notation "m ;; k" := (bind m (fun _ => k))
  (at level 61, right associativity) : js_scope.
Local Open Scope js_scope.

(** ** Array and number primitives *)

(** [arr.reduce(f, init)]; without an initial value an empty array throws. *)
Definition Array_reduce (f : Q -> Q -> Q) (init : option Q) (arr : list Q) : M Q :=
  match init, arr with
  | Some i, _ => ret (fold_left f arr i)
  | None, x :: xs => ret (fold_left f xs x)
  | None, [] => throw TypeError
  end.

(** [a / b] where [b] is not a literal. *)
Definition divide (a b : Q) : M Q :=
  if Qeq_bool b 0 then throw NotFinite else ret (a / b).

(** [[...new Set(arr)]]: first occurrences, in insertion order. *)
Fixpoint Set_spread (seen : list string) (arr : list string) : list string :=
  match arr with
  | [] => []
  | x :: xs =>
      if existsb (String.eqb x) seen then Set_spread seen xs
      else x :: Set_spread (x :: seen) xs
  end.

(** [this.frameHistory] as a value, [push] and [shift] on it. *)
Definition this_frameHistory : M (list PostureMetrics) :=
  fun s => Ok (frameHistory s, s).

Definition frameHistory_push (m : PostureMetrics) : M unit :=
  fun s => Ok (tt, mkMachine (frameHistory s ++ [m]) (clockReads s) (randomDraws s)).

Definition frameHistory_shift : M unit :=
  fun s => Ok (tt, mkMachine (tl (frameHistory s)) (clockReads s) (randomDraws s)).

(** ** Pure methods *)

(** Lines 348-354. *)
Definition calculateConfidence (stability frameNumber : Q) : Q :=
  let frameConfidence := Math_min 1 (frameNumber / 10) in
  let stabilityConfidence := stability in
  (frameConfidence * 0.4 + stabilityConfidence * 0.6) * 0.9 + 0.1.

(** The [forEach] of lines 318-320 and 335-337. *)
Definition deductIssues (score : Q) (issues : list PostureIssue) : Q :=
  fold_left (fun score issue => score - severity issue * 2) issues score.

(** Lines 314-329. *)
Definition calculateSquatScore (metrics : PostureMetrics) (issues : list PostureIssue) : Q :=
  let score := 100 in
  let score := deductIssues score issues in
  let score := if squatDepth metrics >? 0.7 then score + 10 else score in
  let score := if kneeTracking metrics <? 0.05 then score + 15 else score in
  let score := if backCurvature metrics <? 0.2 then score + 10 else score in
  let score := if overallStability metrics >? 0.8 then score + 5 else score in
  Math_max 0 (Math_min 100 score).

(** Lines 331-346. *)
Definition calculateSittingScore (metrics : PostureMetrics) (issues : list PostureIssue) : Q :=
  let score := 100 in
  let score := deductIssues score issues in
  let score := if neckAngle metrics <? 15 then score + 15 else score in
  let score := if backCurvature metrics <? 0.2 then score + 15 else score in
  let score := if shoulderAlignment metrics <? 0.05 then score + 10 else score in
  let score := if overallStability metrics >? 0.8 then score + 5 else score in
  Math_max 0 (Math_min 100 score).

(** Lines 113 and 216. *)
Definition goodVerdict (issues : list PostureIssue) (overallScore : Q) : bool :=
  (length (filter (fun i => IssueType_eqb (type i) critical) issues) =? 0)%nat
  && (overallScore >? 70).

(** ** Stability (lines 294-312) *)

Definition calculateVariance (values : list Q) : M Q :=
  total <- Array_reduce Qplus (Some 0) values ;;
  mean <- divide total (len values) ;;
  let squaredDiffs := map (fun value => Math_pow2 (value - mean)) values in
  total2 <- Array_reduce Qplus (Some 0) squaredDiffs ;;
  divide total2 (len values).

Definition calculateStability : M Q :=
  h <- this_frameHistory ;;
  if (length h <? 2)%nat then ret 0.5
  else
    vBack <- calculateVariance (map backCurvature h) ;;
    vShoulder <- calculateVariance (map shoulderAlignment h) ;;
    vStability <- calculateVariance (map overallStability h) ;;
    let avgVariance := (vBack + vShoulder + vStability) / 3 in
    ret (Math_max 0 (Math_min 1 (1 - avgVariance * 10))).

(** Lines 38-41 and 131-134. *)
Definition storeFrame (metrics : PostureMetrics) : M unit :=
  frameHistory_push metrics ;;
  h <- this_frameHistory ;;
  if (stabilityWindow <? length h)%nat then frameHistory_shift else ret tt.

(** ** The stability formula in the words of the specification

    The variance of the samples held in the window is their mean squared
    deviation from their mean, the divisor being the number of samples.
    [besselVariance] is the other estimator that goes by the name of sample
    variance, with divisor [n - 1]; it is kept for comparison only. *)

Definition sum (l : list Q) : Q := fold_right Qplus 0 l.

Definition mean (l : list Q) : Q := sum l / len l.

Definition squaredDeviations (l : list Q) : list Q :=
  map (fun x => (x - mean l) * (x - mean l)) l.

Definition varianceOfSamples (l : list Q) : Q :=
  sum (squaredDeviations l) / len l.

Definition besselVariance (l : list Q) : Q :=
  sum (squaredDeviations l) / (len l - 1).

Definition clamp (x lo hi : Q) : Q := Qmax lo (Qmin hi x).

Definition stabilityFrom (variance : list Q -> Q) (h : list PostureMetrics) : Q :=
  let avgVariance :=
    (variance (map backCurvature h)
     + variance (map shoulderAlignment h)
     + variance (map overallStability h)) / 3 in
  clamp (1 - avgVariance * 10) 0 1.

(** ** Predicates used in the statements *)

(** The issue of the first squat rule: critical, severity 9. *)
Definition isKneeValgus (i : PostureIssue) : Prop :=
  type i = critical /\ severity i == 9.

Definition kneeValgusMessage : string :=
  "DANGER: Knee valgus detected - high injury risk!".

(** What one call does to the history: the new frame goes to the back, and
    the front one leaves when that makes more than [stabilityWindow]. *)
Definition stored (h : list PostureMetrics) (m : PostureMetrics) : list PostureMetrics :=
  if (length h <? stabilityWindow)%nat then h ++ [m] else tl h ++ [m].

(** A method that always returns and leaves [frameHistory] as it was. *)
Definition keepsHistory {A : Type} (m : M A) : Prop :=
  forall s, exists a s', m s = Ok (a, s') /\ frameHistory s' = frameHistory s.

(** ** The rule blocks as tables

    The rule blocks of each method, written as data: the condition, the
    fields of the issue and the advice pushed with it, in source order.
    [squatRules_table] and [sittingRules_table] below show by computation
    that running a table is the method's chain of blocks. *)

Record Rule : Type := mkRule {
  cond : bool;
  kind : IssueType;
  text : string;
  weight : Q;
  remedy : string;
  advice : option string
}.

Definition issueOf (r : Rule) (ts : Z) : PostureIssue :=
  mkIssue (kind r) (text r) (weight r) (remedy r) ts.

Definition squatTable (metrics : PostureMetrics) (stability : Q) : list Rule :=
  [ mkRule (kneeTracking metrics >? 0.15) critical
      "DANGER: Knee valgus detected - high injury risk!" 9
      "Keep knees aligned over toes. Strengthen glutes and hip abductors."
      (Some "Focus on knee alignment - imagine pushing the floor apart with your feet"%string);
    mkRule (backCurvature metrics >? 0.4) critical
      "Excessive forward lean - spine at risk" 8
      "Keep chest up and core engaged. Work on ankle mobility."
      (Some "Improve ankle flexibility with calf stretches"%string);
    mkRule (squatDepth metrics <? 0.3) warning
      "Insufficient squat depth for optimal benefits" 6
      "Aim to get hips below knee level. Work on hip and ankle mobility."
      (Some "Practice bodyweight squats to improve depth"%string);
    mkRule (shoulderAlignment metrics >? 0.1) warning
      "Uneven shoulder position" 5
      "Check for muscle imbalances. Ensure even weight distribution."
      None;
    mkRule (stability <? 0.6) minor
      "Movement instability detected" 3
      "Focus on controlled movement. Strengthen core and stabilizer muscles."
      None;
    mkRule ((squatDepth metrics >? 0.7) && (kneeTracking metrics <? 0.05)
            && (backCurvature metrics <? 0.2)) good
      "Excellent squat form! Great depth and alignment." 0
      "Maintain this form. Consider adding weight progression."
      None ].

Definition sittingTable (metrics : PostureMetrics) (stability : Q) : list Rule :=
  [ mkRule (neckAngle metrics >? 35) critical
      "Severe forward head posture - tech neck risk!" 9
      "Adjust monitor height. Strengthen deep neck flexors."
      (Some "Position screen at eye level to reduce neck strain"%string);
    mkRule (backCurvature metrics >? 0.5) critical
      "Excessive slouching - spinal health at risk" 8
      "Sit back in chair with lumbar support. Strengthen core muscles."
      (Some "Use a lumbar support cushion"%string);
    mkRule ((neckAngle metrics >? 20) && (neckAngle metrics <=? 35)) warning
      "Moderate forward head posture detected" 6
      "Adjust screen position and take regular breaks."
      None;
    mkRule (shoulderAlignment metrics >? 0.08) warning
      "Shoulder imbalance - check your workspace setup" 5
      "Ensure keyboard and mouse are at equal height."
      (Some "Adjust chair height and armrest position"%string);
    mkRule ((backCurvature metrics >? 0.25) && (backCurvature metrics <=? 0.5)) warning
      "Mild slouching detected" 4
      "Engage core muscles and sit tall."
      None;
    mkRule (stability <? 0.7) minor
      "Frequent position changes - consider ergonomic adjustments" 2
      "Take regular movement breaks every 30 minutes."
      None;
    mkRule ((neckAngle metrics <? 15) && (backCurvature metrics <? 0.2)
            && (shoulderAlignment metrics <? 0.05)) good
      "Excellent sitting posture! Well aligned spine and neck." 0
      "Maintain this posture. Take breaks to prevent stiffness."
      None ].

(** The rules of a table whose condition holds, the issues they push when
    the clock has been read [c] times, and the advice they push. *)
Definition fired (rs : list Rule) : list Rule := filter cond rs.

Fixpoint stamp (clock : nat -> Z) (c : nat) (rs : list Rule) : list PostureIssue :=
  match rs with
  | [] => []
  | r :: rs' => issueOf r (clock c) :: stamp clock (S c) rs'
  end.

Fixpoint advices (rs : list Rule) : list string :=
  match rs with
  | [] => []
  | r :: rs' =>
      match advice r with
      | Some a => a :: advices rs'
      | None => advices rs'
      end
  end.

(** Issues in descending order of severity. *)
Definition bySeverity (i j : PostureIssue) : Prop := severity j <= severity i.

Definition byWeight (r r' : Rule) : Prop := weight r' <= weight r.

Definition hasKind (k : IssueType) (l : list PostureIssue) : Prop :=
  exists i, In i l /\ type i = k.

Definition hasMessage (msg : string) (l : list PostureIssue) : Prop :=
  exists i, In i l /\ message i = msg.

(** The metrics of lines 234-260 and 268-291 as functions of the two
    signals they are computed from; [calculateSquatMetrics_value] and
    [calculateSittingMetrics_value] below tie them to the methods. *)
Definition squatMetricsFrom (squatCycle noise : Q) : PostureMetrics :=
  let kneeTracking := Math_max 0 (Math_abs (squatCycle * 0.3) + noise * 0.5) in
  let squatDepth := Math_max 0 (Math_min 1 (Math_abs squatCycle * 0.8 + 0.2)) in
  let backCurvature := Math_max 0 (squatDepth * 0.4 + noise * 0.3) in
  let shoulderAlignment := Math_abs (noise * 0.2) in
  let hipAlignment := Math_abs (noise * 0.15) in
  let overallStability := Math_max 0.3 (1 - Math_abs (noise * 2)) in
  mkMetrics 0 backCurvature shoulderAlignment hipAlignment kneeTracking squatDepth
    overallStability.

Definition sittingMetricsFrom (postureVariation noise : Q) : PostureMetrics :=
  let neckAngle := Math_max 0 (Math_min 60 (15 + postureVariation * 20 + noise * 15)) in
  let backCurvature :=
    Math_max 0 (Math_min 1 (0.2 + Math_abs postureVariation * 0.4 + noise * 0.3)) in
  let shoulderAlignment := Math_abs (noise * 0.15) in
  let hipAlignment := Math_abs (noise * 0.1) in
  let overallStability := Math_max 0.5 (1 - Math_abs (noise * 1.5)) in
  mkMetrics neckAngle backCurvature shoulderAlignment hipAlignment 0 0
    overallStability.

(** ** The video caller (src/unnamed/part_003)

    The component keeps one engine for its lifetime and calls it once per
    sampled frame.  Its React state is read as plain arguments and its
    results as return values; progress display, delays and storage are left
    out. *)

Inductive AnalysisMode : Type := squat | sitting.

(** [VideoAnalysisResult]: the analysis spread into a record with the video
    timestamp ([timestamp] in the source, a name the issue record holds
    here). *)
Record VideoAnalysisResult : Type := mkVideoResult {
  analysis : PostureAnalysis;
  frameTimestamp : Q
}.

(** [x % 1]: what is left of [x] once truncated towards zero. *)
Definition rem1 (x : Q) : Q := x - inject_Z (Z.quot (Qnum x) (Zpos (Qden x))).

(** Lines 234-250. *)
Definition getCurrentAnalysis (results : list VideoAnalysisResult) (currentTime : Q)
    : option VideoAnalysisResult :=
  match results with
  | [] => None
  | first :: _ =>
      let closest := first in
      let minDiff := Math_abs (frameTimestamp closest - currentTime) in
      let found :=
        fold_left
          (fun (best : VideoAnalysisResult * Q) result =>
             let diff := Math_abs (frameTimestamp result - currentTime) in
             if diff <? snd best then (result, diff) else best)
          results (closest, minDiff) in
      if snd found <? 2 then Some (fst found) else None
  end.

Record OverallStats : Type := mkStats {
  averageScore : Q;
  goodPosturePercentage : Q;
  criticalIssues : nat;
  topRecommendations : list string
}.

(** Lines 312-326. *)
Definition getOverallStats (results : list VideoAnalysisResult) : option OverallStats :=
  if (length results =? 0)%nat then None
  else
    let avgScore :=
      fold_left (fun sum r => sum + overallScore (analysis r)) results 0
      / len results in
    let goodPostureFrames :=
      length (filter (fun r => isGoodPosture (analysis r)) results) in
    let criticalIssues :=
      fold_left
        (fun sum r =>
           (sum + length (filter (fun i => IssueType_eqb (type i) critical)
                            (issues (analysis r))))%nat)
        results 0%nat in
    let topRecommendations :=
      firstn 5 (Set_spread [] (flat_map (fun r => recommendations (analysis r)) results)) in
    Some {| averageScore := avgScore;
            goodPosturePercentage :=
              inject_Z (Z.of_nat goodPostureFrames) / len results * 100;
            criticalIssues := criticalIssues;
            topRecommendations := topRecommendations |}.

(** The sampling of lines 111-112: at most 100 points, at least half a
    second apart. *)
Definition sampleRateOf (duration : Q) : Q := Math_max 0.5 (duration / 100).

Definition totalSamplesOf (duration : Q) : Z :=
  Qfloor (duration / sampleRateOf duration).

(** ** Hosts for concrete runs

    A clock that reads 0 at every call, three random sources, and the cubic
    Taylor polynomial of the sine, exact at 0, the only point where these
    hosts evaluate it. *)

Definition clockZero : nat -> Z := fun _ => 0%Z.

Definition randomHalf : nat -> Q := fun _ => 0.5.

Definition randomZero : nat -> Q := fun _ => 0.

Definition randomHalfThenZero : nat -> Q :=
  fun n => match n with O => 0.5 | S _ => 0 end.

Definition sineNearZero (x : Q) : Q := x - x * x * x / 6.

Definition piRounded : Q := 3.14159.

(** A sitting observation in the shape the callers pass, and the same
    observation with the head landmark missing. *)
Definition point (x y : Q) : JsValue :=
  JsObject [("x"%string, JsNumber x); ("y"%string, JsNumber y)].

Definition sittingObservation : list JsValue :=
  [JsObject [("head"%string, point 0.5 0.15); ("neck"%string, point 0.5 0.25);
             ("shoulders"%string,
              JsObject [("left"%string, point 0.35 0.35);
                        ("right"%string, point 0.65 0.35)]);
             ("spine"%string, point 0.5 0.5); ("hips"%string, point 0.5 0.65)]].

Definition headlessObservation : list JsValue :=
  [JsObject [("neck"%string, point 0.5 0.25);
             ("spine"%string, point 0.5 0.5); ("hips"%string, point 0.5 0.65)]].

Definition frame (back shoulder stability : Q) : PostureMetrics :=
  {| neckAngle := 0; backCurvature := back; shoulderAlignment := shoulder;
     hipAlignment := 0; kneeTracking := 0; squatDepth := 0;
     overallStability := stability |}.

(** An engine that holds three identical frames. *)
Definition steadyFrames : Machine :=
  mkMachine [frame 0.1 0.01 0.9; frame 0.1 0.01 0.9; frame 0.1 0.01 0.9] 0 0.

(** An engine that holds two frames whose [backCurvature] differ. *)
Definition twoFrames : Machine :=
  mkMachine [frame 0 0 1; frame 0.2 0 1] 0 0.

(** Metrics of a deep, well aligned squat and of an upright sitting
    posture. *)
Definition deepSquat : PostureMetrics :=
  {| neckAngle := 0; backCurvature := 0.1; shoulderAlignment := 0.01;
     hipAlignment := 0; kneeTracking := 0.02; squatDepth := 0.8;
     overallStability := 0.9 |}.

Definition upright : PostureMetrics :=
  {| neckAngle := 10; backCurvature := 0.1; shoulderAlignment := 0.01;
     hipAlignment := 0; kneeTracking := 0; squatDepth := 0;
     overallStability := 0.9 |}.

Definition withKneeTracking (k : Q) : PostureMetrics :=
  {| neckAngle := 0; backCurvature := 0.1; shoulderAlignment := 0.01;
     hipAlignment := 0; kneeTracking := k; squatDepth := 0.5;
     overallStability := 0.9 |}.

(** ** The host and the methods that read it *)

Section Engine.

(** [Date_now n] is what the [n]-th call of [Date.now()] returns,
    [Math_random n] what the [n]-th call of [Math.random()] returns, and
    [Math_sin] the host's sine. *)
Variable Date_now : nat -> Z.
Variable Math_random : nat -> Q.
Variable Math_sin : Q -> Q.

Definition now : M Z :=
  fun s => Ok (Date_now (clockReads s),
               mkMachine (frameHistory s) (S (clockReads s)) (randomDraws s)).

Definition random : M Q :=
  fun s => Ok (Math_random (randomDraws s),
               mkMachine (frameHistory s) (clockReads s) (S (randomDraws s))).

(** Lines 228-261. *)
Definition calculateSquatMetrics : M PostureMetrics :=
  time <- now ;;
  let squatCycle := Math_sin (inject_Z time / 4000) in
  r <- random ;;
  let noise := (r - 0.5) * 0.1 in
  let kneeTracking := Math_max 0 (Math_abs (squatCycle * 0.3) + noise * 0.5) in
  let squatDepth := Math_max 0 (Math_min 1 (Math_abs squatCycle * 0.8 + 0.2)) in
  let backCurvature := Math_max 0 (squatDepth * 0.4 + noise * 0.3) in
  let shoulderAlignment := Math_abs (noise * 0.2) in
  let hipAlignment := Math_abs (noise * 0.15) in
  let overallStability := Math_max 0.3 (1 - Math_abs (noise * 2)) in
  ret {| neckAngle := 0;
         backCurvature := backCurvature;
         shoulderAlignment := shoulderAlignment;
         hipAlignment := hipAlignment;
         kneeTracking := kneeTracking;
         squatDepth := squatDepth;
         overallStability := overallStability |}.

(** Lines 263-292. *)
Definition calculateSittingMetrics : M PostureMetrics :=
  time <- now ;;
  let postureVariation := Math_sin (inject_Z time / 6000) in
  r <- random ;;
  let noise := (r - 0.5) * 0.1 in
  let neckAngle := Math_max 0 (Math_min 60 (15 + postureVariation * 20 + noise * 15)) in
  let backCurvature :=
    Math_max 0 (Math_min 1 (0.2 + Math_abs postureVariation * 0.4 + noise * 0.3)) in
  let shoulderAlignment := Math_abs (noise * 0.15) in
  let hipAlignment := Math_abs (noise * 0.1) in
  let overallStability := Math_max 0.5 (1 - Math_abs (noise * 1.5)) in
  ret {| neckAngle := neckAngle;
         backCurvature := backCurvature;
         shoulderAlignment := shoulderAlignment;
         hipAlignment := hipAlignment;
         kneeTracking := 0;
         squatDepth := 0;
         overallStability := overallStability |}.

(** ** Rule evaluation *)

(** The two local accumulators of an analysis call: [issues] and
    [recommendations]. *)
Definition Locals : Type := (list PostureIssue * list string)%type.

(** One rule block of the source:
    [if (cond) { issues.push({..., timestamp: Date.now()}); recommendations.push(advice) }],
    the second push being absent from some blocks. *)
Definition rule (cond : bool) (issue : Z -> PostureIssue) (advice : option string)
    (acc : Locals) : M Locals :=
  if cond then
    ts <- now ;;
    ret (fst acc ++ [issue ts],
         match advice with
         | Some r => snd acc ++ [r]
         | None => snd acc
         end)
  else ret acc.

(** Lines 45-110. *)
Definition squatRules (metrics : PostureMetrics) (stability : Q) : M Locals :=
  let acc : Locals := ([], []) in
  acc <- rule (kneeTracking metrics >? 0.15)
    (mkIssue critical "DANGER: Knee valgus detected - high injury risk!" 9
       "Keep knees aligned over toes. Strengthen glutes and hip abductors.")
    (Some "Focus on knee alignment - imagine pushing the floor apart with your feet"%string)
    acc ;;
  acc <- rule (backCurvature metrics >? 0.4)
    (mkIssue critical "Excessive forward lean - spine at risk" 8
       "Keep chest up and core engaged. Work on ankle mobility.")
    (Some "Improve ankle flexibility with calf stretches"%string)
    acc ;;
  acc <- rule (squatDepth metrics <? 0.3)
    (mkIssue warning "Insufficient squat depth for optimal benefits" 6
       "Aim to get hips below knee level. Work on hip and ankle mobility.")
    (Some "Practice bodyweight squats to improve depth"%string)
    acc ;;
  acc <- rule (shoulderAlignment metrics >? 0.1)
    (mkIssue warning "Uneven shoulder position" 5
       "Check for muscle imbalances. Ensure even weight distribution.")
    None acc ;;
  acc <- rule (stability <? 0.6)
    (mkIssue minor "Movement instability detected" 3
       "Focus on controlled movement. Strengthen core and stabilizer muscles.")
    None acc ;;
  rule ((squatDepth metrics >? 0.7) && (kneeTracking metrics <? 0.05)
        && (backCurvature metrics <? 0.2))
    (mkIssue good "Excellent squat form! Great depth and alignment." 0
       "Maintain this form. Consider adding weight progression.")
    None acc.

(** Lines 138-213. *)
Definition sittingRules (metrics : PostureMetrics) (stability : Q) : M Locals :=
  let acc : Locals := ([], []) in
  acc <- rule (neckAngle metrics >? 35)
    (mkIssue critical "Severe forward head posture - tech neck risk!" 9
       "Adjust monitor height. Strengthen deep neck flexors.")
    (Some "Position screen at eye level to reduce neck strain"%string)
    acc ;;
  acc <- rule (backCurvature metrics >? 0.5)
    (mkIssue critical "Excessive slouching - spinal health at risk" 8
       "Sit back in chair with lumbar support. Strengthen core muscles.")
    (Some "Use a lumbar support cushion"%string)
    acc ;;
  acc <- rule ((neckAngle metrics >? 20) && (neckAngle metrics <=? 35))
    (mkIssue warning "Moderate forward head posture detected" 6
       "Adjust screen position and take regular breaks.")
    None acc ;;
  acc <- rule (shoulderAlignment metrics >? 0.08)
    (mkIssue warning "Shoulder imbalance - check your workspace setup" 5
       "Ensure keyboard and mouse are at equal height.")
    (Some "Adjust chair height and armrest position"%string)
    acc ;;
  acc <- rule ((backCurvature metrics >? 0.25) && (backCurvature metrics <=? 0.5))
    (mkIssue warning "Mild slouching detected" 4
       "Engage core muscles and sit tall.")
    None acc ;;
  acc <- rule (stability <? 0.7)
    (mkIssue minor "Frequent position changes - consider ergonomic adjustments" 2
       "Take regular movement breaks every 30 minutes.")
    None acc ;;
  rule ((neckAngle metrics <? 15) && (backCurvature metrics <? 0.2)
        && (shoulderAlignment metrics <? 0.05))
    (mkIssue good "Excellent sitting posture! Well aligned spine and neck." 0
       "Maintain this posture. Take breaks to prevent stiffness.")
    None acc.

(** ** The two public methods *)

(** Lines 32-123. *)
Definition analyzeSquatPosture (landmarks : list JsValue) (frameNumber : Q)
    : M PostureAnalysis :=
  metrics <- calculateSquatMetrics ;;
  storeFrame metrics ;;
  stability <- calculateStability ;;
  acc <- squatRules metrics stability ;;
  let issues := fst acc in
  let recommendations := snd acc in
  let overallScore := calculateSquatScore metrics issues in
  let isGoodPosture := goodVerdict issues overallScore in
  ret {| isGoodPosture := isGoodPosture;
         overallScore := overallScore;
         issues := issues;
         metrics := metrics;
         confidence := calculateConfidence stability frameNumber;
         recommendations := Set_spread [] recommendations |}.

(** Lines 125-226. *)
Definition analyzeSittingPosture (landmarks : list JsValue) (frameNumber : Q)
    : M PostureAnalysis :=
  metrics <- calculateSittingMetrics ;;
  storeFrame metrics ;;
  stability <- calculateStability ;;
  acc <- sittingRules metrics stability ;;
  let issues := fst acc in
  let recommendations := snd acc in
  let overallScore := calculateSittingScore metrics issues in
  let isGoodPosture := goodVerdict issues overallScore in
  ret {| isGoodPosture := isGoodPosture;
         overallScore := overallScore;
         issues := issues;
         metrics := metrics;
         confidence := calculateConfidence stability frameNumber;
         recommendations := Set_spread [] recommendations |}.

(** The shape both methods share; [analyzeSquatPosture] and
    [analyzeSittingPosture] are its two instances. *)
Definition analyzeWith (derive : M PostureMetrics)
    (rules : PostureMetrics -> Q -> M Locals)
    (score : PostureMetrics -> list PostureIssue -> Q)
    (frameNumber : Q) : M PostureAnalysis :=
  metrics <- derive ;;
  storeFrame metrics ;;
  stability <- calculateStability ;;
  acc <- rules metrics stability ;;
  ret {| isGoodPosture := goodVerdict (fst acc) (score metrics (fst acc));
         overallScore := score metrics (fst acc);
         issues := fst acc;
         metrics := metrics;
         confidence := calculateConfidence stability frameNumber;
         recommendations := Set_spread [] (snd acc) |}.


(** The metrics a call derives in state [s], and the history once a frame
    is pushed and the front one shifted out when that makes more than
    [stabilityWindow]. *)
Definition squatReading (s : Machine) : PostureMetrics :=
  squatMetricsFrom
    (Math_sin (inject_Z (Date_now (clockReads s)) / 4000))
    ((Math_random (randomDraws s) - 0.5) * 0.1).

Definition sittingReading (s : Machine) : PostureMetrics :=
  sittingMetricsFrom
    (Math_sin (inject_Z (Date_now (clockReads s)) / 6000))
    ((Math_random (randomDraws s) - 0.5) * 0.1).

Definition pushed (h : list PostureMetrics) (m : PostureMetrics) : list PostureMetrics :=
  if (stabilityWindow <? length (h ++ [m]))%nat then tl (h ++ [m]) else h ++ [m].

(** Running a table: one rule block after the other. *)
Fixpoint runRules (rs : list Rule) (acc : Locals) : M Locals :=
  match rs with
  | [] => ret acc
  | r :: rs' =>
      match rs' with
      | [] => rule (cond r) (issueOf r) (advice r) acc
      | _ => acc' <- rule (cond r) (issueOf r) (advice r) acc ;; runRules rs' acc'
      end
  end.

(** [Math.PI], as the host rounds it. *)
Variable Math_PI : Q.

(** Lines 44-76: the object the caller passes as the only landmark. *)
Definition generateVideoLandmarks (timestamp duration : Q) (mode : AnalysisMode)
    : JsValue :=
  let progress := timestamp / duration in
  match mode with
  | squat =>
      let squatCycles := 3 in
      let cycleProgress := rem1 (progress * squatCycles) in
      let squatPhase := Math_sin (cycleProgress * Math_PI * 2) * 0.5 + 0.5 in
      let formVariation := Math_sin (progress * Math_PI * 4) * 0.1 in
      let fatigue := progress * 0.3 in
      JsObject
        [("squatDepth"%string, JsNumber (squatPhase * (0.9 - fatigue)));
         ("kneeTracking"%string, JsNumber (Math_abs formVariation + fatigue * 0.2));
         ("backCurvature"%string, JsNumber ((1 - squatPhase) * 0.3 + fatigue * 0.2));
         ("shoulderAlignment"%string, JsNumber (Math_abs (formVariation * 0.5)));
         ("overallStability"%string, JsNumber (0.8 - fatigue * 0.3))]
  | sitting =>
      let postureDecline := Math_min (progress * 2) 1 in
      let microMovements := Math_sin (progress * Math_PI * 8) * 0.1 in
      JsObject
        [("neckAngle"%string,
          JsNumber (10 + postureDecline * 25 + Math_abs microMovements * 10));
         ("backCurvature"%string,
          JsNumber (0.1 + postureDecline * 0.4 + Math_abs microMovements * 0.1));
         ("shoulderAlignment"%string, JsNumber (Math_abs microMovements * 0.15));
         ("overallStability"%string, JsNumber (0.9 - postureDecline * 0.3))]
  end.

(** Lines 78-92. *)
Definition analyzeVideoFrame (analysisMode : AnalysisMode)
    (timestamp duration : Q) (frameIndex : nat) : M VideoAnalysisResult :=
  let mockLandmarks := generateVideoLandmarks timestamp duration analysisMode in
  a <- match analysisMode with
       | squat => analyzeSquatPosture [mockLandmarks] (inject_Z (Z.of_nat frameIndex))
       | sitting => analyzeSittingPosture [mockLandmarks] (inject_Z (Z.of_nat frameIndex))
       end ;;
  ret {| analysis := a; frameTimestamp := timestamp |}.

(** The loop of lines 115-125, [remaining] iterations from index [i] on. *)
Fixpoint sampleLoop (analysisMode : AnalysisMode) (duration sampleRate : Q)
    (remaining i : nat) (analysisResults : list VideoAnalysisResult)
    : M (list VideoAnalysisResult) :=
  match remaining with
  | O => ret analysisResults
  | S k =>
      let timestamp := inject_Z (Z.of_nat i) * sampleRate in
      result <- analyzeVideoFrame analysisMode timestamp duration i ;;
      sampleLoop analysisMode duration sampleRate k (S i) (analysisResults ++ [result])
  end.

(** Lines 94-128: [ready] is [selectedFile && videoRef.current]; the value
    is the array given to [setResults], or [None] when the function returns
    before. *)
Definition analyzeFullVideo (ready : bool) (analysisMode : AnalysisMode)
    (duration : Q) : M (option (list VideoAnalysisResult)) :=
  if negb ready then ret None
  else if Qeq_bool duration 0 then ret None
  else
    let sampleRate := sampleRateOf duration in
    let totalSamples := totalSamplesOf duration in
    analysisResults <-
      sampleLoop analysisMode duration sampleRate (Z.to_nat totalSamples) 0 [] ;;
    ret (Some analysisResults).

(** ** Comparisons, clamps and the monad *)

Lemma Qltb_lt (x y : Q) : (x <? y) = true <-> x < y.
Proof.
  unfold Qltb. rewrite negb_true_iff. split; intros H.
  - apply Qnot_le_lt. intros L. apply Qle_bool_iff in L. congruence.
  - destruct (Qle_bool y x) eqn:E; [|reflexivity].
    apply Qle_bool_iff in E. exfalso. exact (Qlt_not_le _ _ H E).
Qed.

Lemma Qltb_ge (x y : Q) : (x <? y) = false <-> y <= x.
Proof.
  unfold Qltb. rewrite negb_false_iff. apply Qle_bool_iff.
Qed.

Lemma clamp_range (lo hi x : Q) :
  lo <= hi -> lo <= Math_max lo (Math_min hi x) <= hi.
Proof.
  intros H. unfold Math_max, Math_min. split.
  - apply Q.le_max_l.
  - apply Q.max_lub; [exact H | apply Q.le_min_l].
Qed.

Lemma bind_Ok {A B : Type} (m : M A) (k : A -> M B) (s s1 : Machine) (a : A) :
  m s = Ok (a, s1) -> bind m k s = k a s1.
Proof. intros H. unfold bind. rewrite H. reflexivity. Qed.

Lemma bind_Ok_inv {A B : Type} (m : M A) (k : A -> M B) (s : Machine)
    (r : B * Machine) :
  bind m k s = Ok r -> exists a s1, m s = Ok (a, s1) /\ k a s1 = Ok r.
Proof.
  unfold bind. destruct (m s) as [[a s1]|f]; [|discriminate].
  intros H. exists a, s1. split; [reflexivity | exact H].
Qed.

(** ** Variance and stability *)

Lemma fold_left_Qplus (l : list Q) (a : Q) : fold_left Qplus l a == a + sum l.
Proof.
  revert a. induction l as [|x l IH]; intros a; simpl.
  - ring.
  - rewrite IH. ring.
Qed.

Lemma sum_map_ext (f g : Q -> Q) (l : list Q) :
  (forall x, f x == g x) -> sum (map f l) == sum (map g l).
Proof.
  intros H. induction l as [|x l IH]; simpl.
  - reflexivity.
  - rewrite IH, (H x). reflexivity.
Qed.

Lemma len_nonzero {A : Type} (l : list A) : l <> [] -> ~ len l == 0.
Proof.
  destruct l as [|x l]; [congruence|]. intros _ H.
  unfold len, Qeq in H. simpl in H. lia.
Qed.

Lemma divide_run (a b : Q) (s : Machine) :
  ~ b == 0 -> divide a b s = Ok (a / b, s).
Proof.
  intros H. unfold divide. destruct (Qeq_bool b 0) eqn:E.
  - apply Qeq_bool_eq in E. contradiction.
  - reflexivity.
Qed.

Lemma calculateVariance_run (values : list Q) (s : Machine) :
  values <> [] ->
  exists v, calculateVariance values s = Ok (v, s) /\ v == varianceOfSamples values.
Proof.
  intros Hne. pose proof (len_nonzero values Hne) as Hlen.
  unfold calculateVariance, Array_reduce, bind, ret.
  rewrite (divide_run _ _ s Hlen), (divide_run _ _ s Hlen).
  eexists. split; [reflexivity|].
  assert (Hm : fold_left Qplus values 0 / len values == mean values).
  { unfold mean. rewrite fold_left_Qplus. rewrite Qplus_0_l. reflexivity. }
  unfold varianceOfSamples, squaredDeviations.
  rewrite fold_left_Qplus, Qplus_0_l.
  apply Qdiv_comp; [|reflexivity].
  apply sum_map_ext. intros x. unfold Math_pow2. rewrite Hm. simpl. ring.
Qed.

Lemma map_nonempty {A B : Type} (f : A -> B) (l : list A) :
  (2 <= length l)%nat -> map f l <> [].
Proof. destruct l; simpl; [lia | congruence]. Qed.

Lemma calculateStability_run (s : Machine) :
  exists v, calculateStability s = Ok (v, s)
    /\ 0 <= v <= 1
    /\ ((length (frameHistory s) < 2)%nat -> v = 0.5)
    /\ ((2 <= length (frameHistory s))%nat ->
        v == stabilityFrom varianceOfSamples (frameHistory s)).
Proof.
  unfold calculateStability, this_frameHistory. unfold bind at 1.
  destruct (Nat.ltb_spec (length (frameHistory s)) 2) as [Hlt|Hge].
  - exists 0.5. split; [reflexivity|]. split; [lra|]. split; intros; [reflexivity | lia].
  - destruct (calculateVariance_run (map backCurvature (frameHistory s)) s
               (map_nonempty _ _ Hge)) as (vb & Eb & Hb).
    destruct (calculateVariance_run (map shoulderAlignment (frameHistory s)) s
               (map_nonempty _ _ Hge)) as (vs & Es & Hs).
    destruct (calculateVariance_run (map overallStability (frameHistory s)) s
               (map_nonempty _ _ Hge)) as (vo & Eo & Ho).
    rewrite (bind_Ok _ _ _ _ _ Eb), (bind_Ok _ _ _ _ _ Es), (bind_Ok _ _ _ _ _ Eo).
    eexists. split; [reflexivity|]. split; [|split].
    + apply clamp_range. lra.
    + intros; lia.
    + intros _. unfold stabilityFrom, clamp, Math_max, Math_min.
      rewrite Hb, Hs, Ho. reflexivity.
Qed.

(** ** The history window *)

Lemma storeFrame_run (m : PostureMetrics) (s : Machine) :
  storeFrame m s =
  Ok (tt, mkMachine
            (if (stabilityWindow <? length (frameHistory s ++ [m]))%nat
             then tl (frameHistory s ++ [m]) else frameHistory s ++ [m])
            (clockReads s) (randomDraws s)).
Proof.
  unfold storeFrame, frameHistory_push, this_frameHistory, frameHistory_shift,
    bind, ret. simpl.
  destruct (stabilityWindow <? length (frameHistory s ++ [m]))%nat; reflexivity.
Qed.



Example stored_evicts_oldest :
  stored [frame 0.1 0 1; frame 0.2 0 1; frame 0.3 0 1; frame 0.4 0 1; frame 0.5 0 1]
         (frame 0.6 0 1)
  = [frame 0.2 0 1; frame 0.3 0 1; frame 0.4 0 1; frame 0.5 0 1; frame 0.6 0 1]
  /\ stored [frame 0.1 0 1] (frame 0.2 0 1) = [frame 0.1 0 1; frame 0.2 0 1].
Proof. split; reflexivity. Qed.

(** ** Methods that return and keep the history *)

Lemma keepsHistory_ret {A : Type} (a : A) : keepsHistory (ret a).
Proof. intros s. exists a, s. split; reflexivity. Qed.

Lemma keepsHistory_bind {A B : Type} (m : M A) (k : A -> M B) :
  keepsHistory m -> (forall a, keepsHistory (k a)) -> keepsHistory (bind m k).
Proof.
  intros Hm Hk s.
  destruct (Hm s) as (a & s1 & E1 & H1).
  destruct (Hk a s1) as (b & s2 & E2 & H2).
  exists b, s2. split.
  - rewrite (bind_Ok _ _ _ _ _ E1). exact E2.
  - congruence.
Qed.

Lemma keepsHistory_now : keepsHistory now.
Proof. intros s. eexists. eexists. split; reflexivity. Qed.

Lemma keepsHistory_random : keepsHistory random.
Proof. intros s. eexists. eexists. split; reflexivity. Qed.

Lemma keepsHistory_rule (cond : bool) (issue : Z -> PostureIssue)
    (advice : option string) (acc : Locals) :
  keepsHistory (rule cond issue advice acc).
Proof.
  unfold rule. destruct cond.
  - apply keepsHistory_bind; [apply keepsHistory_now | intros; apply keepsHistory_ret].
  - apply keepsHistory_ret.
Qed.

Lemma keepsHistory_squatRules (m : PostureMetrics) (st : Q) :
  keepsHistory (squatRules m st).
Proof.
  unfold squatRules.
  repeat (apply keepsHistory_bind; [apply keepsHistory_rule | intros ?]).
  apply keepsHistory_rule.
Qed.

Lemma keepsHistory_sittingRules (m : PostureMetrics) (st : Q) :
  keepsHistory (sittingRules m st).
Proof.
  unfold sittingRules.
  repeat (apply keepsHistory_bind; [apply keepsHistory_rule | intros ?]).
  apply keepsHistory_rule.
Qed.

Lemma keepsHistory_squatMetrics : keepsHistory calculateSquatMetrics.
Proof.
  unfold calculateSquatMetrics.
  apply keepsHistory_bind; [apply keepsHistory_now | intros ?].
  apply keepsHistory_bind; [apply keepsHistory_random | intros ?].
  apply keepsHistory_ret.
Qed.

Lemma keepsHistory_sittingMetrics : keepsHistory calculateSittingMetrics.
Proof.
  unfold calculateSittingMetrics.
  apply keepsHistory_bind; [apply keepsHistory_now | intros ?].
  apply keepsHistory_bind; [apply keepsHistory_random | intros ?].
  apply keepsHistory_ret.
Qed.

(** What a rule block does to the issue list: it appends its issue, stamped
    with the clock reading of that moment, when its condition holds. *)
Lemma rule_run (cond : bool) (issue : Z -> PostureIssue) (advice : option string)
    (acc : Locals) (s : Machine) :
  exists acc' s',
    rule cond issue advice acc s = Ok (acc', s')
    /\ fst acc' = fst acc ++ (if cond then [issue (Date_now (clockReads s))] else []).
Proof.
  unfold rule. destruct cond.
  - eexists. eexists. split; reflexivity.
  - exists acc, s. split; [reflexivity|]. rewrite app_nil_r. reflexivity.
Qed.

(** ** One analysis call *)

Lemma analyzeSquatPosture_shape (landmarks : list JsValue) (frameNumber : Q) :
  analyzeSquatPosture landmarks frameNumber
  = analyzeWith calculateSquatMetrics squatRules calculateSquatScore frameNumber.
Proof. reflexivity. Qed.

Lemma analyzeSittingPosture_shape (landmarks : list JsValue) (frameNumber : Q) :
  analyzeSittingPosture landmarks frameNumber
  = analyzeWith calculateSittingMetrics sittingRules calculateSittingScore frameNumber.
Proof. reflexivity. Qed.

Lemma analyzeWith_run (derive : M PostureMetrics)
    (rules : PostureMetrics -> Q -> M Locals)
    (score : PostureMetrics -> list PostureIssue -> Q)
    (frameNumber : Q) (s : Machine) :
  keepsHistory derive ->
  (forall m st, keepsHistory (rules m st)) ->
  exists m s0 st acc s',
    derive s = Ok (m, s0)
    /\ 0 <= st <= 1
    /\ analyzeWith derive rules score frameNumber s
       = Ok ({| isGoodPosture := goodVerdict (fst acc) (score m (fst acc));
                overallScore := score m (fst acc);
                issues := fst acc;
                metrics := m;
                confidence := calculateConfidence st frameNumber;
                recommendations := Set_spread [] (snd acc) |}, s')
    /\ frameHistory s'
       = (if (stabilityWindow <? length (frameHistory s ++ [m]))%nat
          then tl (frameHistory s ++ [m]) else frameHistory s ++ [m]).
Proof.
  intros Hd Hr.
  destruct (Hd s) as (m & s0 & E0 & H0).
  pose proof (storeFrame_run m s0) as E1.
  remember (mkMachine
              (if (stabilityWindow <? length (frameHistory s0 ++ [m]))%nat
               then tl (frameHistory s0 ++ [m]) else frameHistory s0 ++ [m])
              (clockReads s0) (randomDraws s0)) as s1 eqn:Hs1.
  destruct (calculateStability_run s1) as (st & E2 & Hst & _).
  destruct (Hr m st s1) as (acc & s' & E3 & H3).
  exists m, s0, st, acc, s'.
  split; [exact E0|]. split; [exact Hst|]. split.
  - unfold analyzeWith.
    rewrite (bind_Ok _ _ _ _ _ E0), (bind_Ok _ _ _ _ _ E1),
      (bind_Ok _ _ _ _ _ E2), (bind_Ok _ _ _ _ _ E3).
    reflexivity.
  - rewrite H3, Hs1. simpl. rewrite H0. reflexivity.
Qed.

Lemma analyzeSquatPosture_run (landmarks : list JsValue) (frameNumber : Q)
    (s : Machine) :
  exists m s0 st acc s',
    calculateSquatMetrics s = Ok (m, s0)
    /\ 0 <= st <= 1
    /\ analyzeSquatPosture landmarks frameNumber s
       = Ok ({| isGoodPosture := goodVerdict (fst acc) (calculateSquatScore m (fst acc));
                overallScore := calculateSquatScore m (fst acc);
                issues := fst acc;
                metrics := m;
                confidence := calculateConfidence st frameNumber;
                recommendations := Set_spread [] (snd acc) |}, s')
    /\ frameHistory s'
       = (if (stabilityWindow <? length (frameHistory s ++ [m]))%nat
          then tl (frameHistory s ++ [m]) else frameHistory s ++ [m]).
Proof.
  rewrite analyzeSquatPosture_shape.
  apply analyzeWith_run;
    [apply keepsHistory_squatMetrics | apply keepsHistory_squatRules].
Qed.

Lemma analyzeSittingPosture_run (landmarks : list JsValue) (frameNumber : Q)
    (s : Machine) :
  exists m s0 st acc s',
    calculateSittingMetrics s = Ok (m, s0)
    /\ 0 <= st <= 1
    /\ analyzeSittingPosture landmarks frameNumber s
       = Ok ({| isGoodPosture := goodVerdict (fst acc) (calculateSittingScore m (fst acc));
                overallScore := calculateSittingScore m (fst acc);
                issues := fst acc;
                metrics := m;
                confidence := calculateConfidence st frameNumber;
                recommendations := Set_spread [] (snd acc) |}, s')
    /\ frameHistory s'
       = (if (stabilityWindow <? length (frameHistory s ++ [m]))%nat
          then tl (frameHistory s ++ [m]) else frameHistory s ++ [m]).
Proof.
  rewrite analyzeSittingPosture_shape.
  apply analyzeWith_run;
    [apply keepsHistory_sittingMetrics | apply keepsHistory_sittingRules].
Qed.

(** ** Scoring *)

Lemma calculateSquatScore_range (m : PostureMetrics) (l : list PostureIssue) :
  0 <= calculateSquatScore m l <= 100.
Proof. unfold calculateSquatScore. cbv zeta. apply clamp_range. lra. Qed.

Lemma calculateSittingScore_range (m : PostureMetrics) (l : list PostureIssue) :
  0 <= calculateSittingScore m l <= 100.
Proof. unfold calculateSittingScore. cbv zeta. apply clamp_range. lra. Qed.

(** The additive formula leaves the range on both sides, and the clamp
    brings it back: one issue of severity 100 gives 100 - 200 + 15 + 5 = -80
    before the clamp and 0 after it; with no issue and every bonus the sum
    is 140 and the score 100. *)
Example calculateSquatScore_clamped_below :
  calculateSquatScore (frame 0.3 0 0.9) [mkIssue critical "x" 100 "y" 0] == 0.
Proof. vm_compute. reflexivity. Qed.

Example calculateSquatScore_clamped_above :
  calculateSquatScore (mkMetrics 0 0.1 0 0 0.02 0.8 0.9) [] == 100.
Proof. vm_compute. reflexivity. Qed.

(** C1. For every metrics vector and every issue list the scores returned by
    [calculateSquatScore] and [calculateSittingScore] lie in [0,100], and so
    does the [overallScore] of the analysis that each public method returns,
    from any state and for any arguments. *)
Theorem overallScore_in_range :
  (forall m l, 0 <= calculateSquatScore m l <= 100)
  /\ (forall m l, 0 <= calculateSittingScore m l <= 100)
  /\ (forall landmarks frameNumber s, exists a s',
        analyzeSquatPosture landmarks frameNumber s = Ok (a, s')
        /\ 0 <= overallScore a <= 100)
  /\ (forall landmarks frameNumber s, exists a s',
        analyzeSittingPosture landmarks frameNumber s = Ok (a, s')
        /\ 0 <= overallScore a <= 100).
Proof.
  split; [exact calculateSquatScore_range|].
  split; [exact calculateSittingScore_range|].
  split; intros landmarks frameNumber s.
  - destruct (analyzeSquatPosture_run landmarks frameNumber s)
      as (m & s0 & st & acc & s' & _ & _ & E & _).
    eexists. exists s'. split; [exact E|]. apply calculateSquatScore_range.
  - destruct (analyzeSittingPosture_run landmarks frameNumber s)
      as (m & s0 & st & acc & s' & _ & _ & E & _).
    eexists. exists s'. split; [exact E|]. apply calculateSittingScore_range.
Qed.

(** ** The verdict *)

Lemma filter_length_zero {A : Type} (f : A -> bool) (l : list A) :
  length (filter f l) = 0%nat <-> forall x, In x l -> f x = false.
Proof.
  induction l as [|x l IH]; simpl.
  - split; [intros _ y [] | reflexivity].
  - destruct (f x) eqn:E; simpl.
    + split; [discriminate|]. intros H. rewrite (H x (or_introl eq_refl)) in E.
      discriminate.
    + rewrite IH. split.
      * intros H y [<-|Hy]; [exact E | exact (H y Hy)].
      * intros H y Hy. apply H. right. exact Hy.
Qed.

Lemma IssueType_eqb_critical (t : IssueType) :
  IssueType_eqb t critical = false <-> t <> critical.
Proof. destruct t; simpl; split; congruence. Qed.

Lemma goodVerdict_iff (l : list PostureIssue) (score : Q) :
  goodVerdict l score = true
  <-> (forall i, In i l -> type i <> critical) /\ 70 < score.
Proof.
  unfold goodVerdict.
  rewrite andb_true_iff, Nat.eqb_eq, Qltb_lt, filter_length_zero.
  split; intros [H1 H2]; (split; [|exact H2]); intros i Hi.
  - apply IssueType_eqb_critical. exact (H1 i Hi).
  - apply IssueType_eqb_critical. exact (H1 i Hi).
Qed.

Lemma goodVerdict_critical (l : list PostureIssue) (score : Q) :
  (exists i, In i l /\ type i = critical) -> goodVerdict l score = false.
Proof.
  intros (i & Hi & Ht). destruct (goodVerdict l score) eqn:E; [|reflexivity].
  apply goodVerdict_iff in E. destruct E as [H _]. exfalso. exact (H i Hi Ht).
Qed.

Example goodVerdict_critical_high_score :
  goodVerdict [mkIssue critical "x" 1 "y" 0] 95 = false
  /\ goodVerdict [mkIssue warning "x" 1 "y" 0] 95 = true
  /\ goodVerdict [] 70 = false.
Proof. repeat split. Qed.

(** C2. In the analysis returned by either public method, [isGoodPosture]
    is true exactly when no issue is critical and [overallScore] exceeds 70;
    with a critical issue present it is false, whatever the score. *)
Theorem isGoodPosture_iff_no_critical_and_score :
  forall landmarks frameNumber s,
    (exists a s',
        analyzeSquatPosture landmarks frameNumber s = Ok (a, s')
        /\ (isGoodPosture a = true
            <-> (forall i, In i (issues a) -> type i <> critical)
                /\ 70 < overallScore a)
        /\ ((exists i, In i (issues a) /\ type i = critical)
            -> isGoodPosture a = false))
    /\ (exists a s',
        analyzeSittingPosture landmarks frameNumber s = Ok (a, s')
        /\ (isGoodPosture a = true
            <-> (forall i, In i (issues a) -> type i <> critical)
                /\ 70 < overallScore a)
        /\ ((exists i, In i (issues a) /\ type i = critical)
            -> isGoodPosture a = false)).
Proof.
  intros landmarks frameNumber s. split.
  - destruct (analyzeSquatPosture_run landmarks frameNumber s)
      as (m & s0 & st & acc & s' & _ & _ & E & _).
    eexists. exists s'. split; [exact E|]. simpl. split.
    + apply goodVerdict_iff.
    + apply goodVerdict_critical.
  - destruct (analyzeSittingPosture_run landmarks frameNumber s)
      as (m & s0 & st & acc & s' & _ & _ & E & _).
    eexists. exists s'. split; [exact E|]. simpl. split.
    + apply goodVerdict_iff.
    + apply goodVerdict_critical.
Qed.

(** ** Stability *)


(** The divisor is the number of samples: on the frames [0] and [0.2] of
    [backCurvature] the engine gives 29/30, and the estimator with divisor
    [n - 1] would give 14/15. *)
Example calculateStability_divisor :
  exists v, calculateStability twoFrames = Ok (v, twoFrames)
    /\ v == 29 # 30
    /\ stabilityFrom besselVariance (frameHistory twoFrames) == 14 # 15.
Proof. vm_compute. eexists. split; [reflexivity|]. split; reflexivity. Qed.

(** ** Confidence *)

Lemma calculateConfidence_formula (stability frameNumber : Q) :
  calculateConfidence stability frameNumber
  = (Qmin 1 (frameNumber / 10) * 0.4 + stability * 0.6) * 0.9 + 0.1.
Proof. reflexivity. Qed.

Lemma by_ten (x : Q) : x / 10 == x * 0.1.
Proof. field. Qed.



(** C5. For a fixed stability, [calculateConfidence] does not decrease when
    [frameNumber] grows. *)
Theorem calculateConfidence_monotone :
  forall stability frameNumber1 frameNumber2,
    frameNumber1 <= frameNumber2 ->
    calculateConfidence stability frameNumber1
    <= calculateConfidence stability frameNumber2.
Proof.
  intros stability f1 f2 H. rewrite !calculateConfidence_formula.
  assert (Hm : Qmin 1 (f1 / 10) <= Qmin 1 (f2 / 10)).
  { rewrite !by_ten. apply Q.min_le_compat_l. lra. }
  lra.
Qed.

(** ** The knee rule *)

Lemma rule_Forall (P : PostureIssue -> Prop) (cond : bool)
    (issue : Z -> PostureIssue) (advice : option string)
    (acc acc' : Locals) (s s' : Machine) :
  rule cond issue advice acc s = Ok (acc', s') ->
  (cond = true -> forall ts, P (issue ts)) ->
  Forall P (fst acc) -> Forall P (fst acc').
Proof.
  intros E Hc Hacc.
  destruct (rule_run cond issue advice acc s) as (a & t & E' & Hl).
  rewrite E in E'. injection E' as <- <-. rewrite Hl.
  apply Forall_app. split; [exact Hacc|].
  destruct cond; [|constructor]. constructor; [apply Hc; reflexivity | constructor].
Qed.

Lemma rule_Exists (P : PostureIssue -> Prop) (cond : bool)
    (issue : Z -> PostureIssue) (advice : option string)
    (acc acc' : Locals) (s s' : Machine) :
  rule cond issue advice acc s = Ok (acc', s') ->
  Exists P (fst acc) -> Exists P (fst acc').
Proof.
  intros E Hacc.
  destruct (rule_run cond issue advice acc s) as (a & t & E' & Hl).
  rewrite E in E'. injection E' as <- <-. rewrite Hl.
  apply Exists_app. left. exact Hacc.
Qed.

Lemma rule_fires (P : PostureIssue -> Prop) (cond : bool)
    (issue : Z -> PostureIssue) (advice : option string)
    (acc acc' : Locals) (s s' : Machine) :
  rule cond issue advice acc s = Ok (acc', s') ->
  cond = true -> (forall ts, P (issue ts)) -> Exists P (fst acc').
Proof.
  intros E Hc HP.
  destruct (rule_run cond issue advice acc s) as (a & t & E' & Hl).
  rewrite E in E'. injection E' as <- <-. rewrite Hl, Hc.
  apply Exists_app. right. constructor. apply HP.
Qed.

Ltac split_rules H :=
  repeat (let a := fresh "acc" in
          let t := fresh "s" in
          let E := fresh "E" in
          apply bind_Ok_inv in H; destruct H as (a & t & E & H)).

(** C6. The critical knee rule of the squat mode compares strictly: a
    metrics vector whose [kneeTracking] equals 0.15 gets no critical issue
    of severity 9 (and none with the knee-valgus message), and one whose
    [kneeTracking] equals 0.1500001 gets it. *)
Theorem squat_knee_rule_strict :
  forall metrics stability s,
    exists acc s',
      squatRules metrics stability s = Ok (acc, s')
      /\ (kneeTracking metrics == 0.15 ->
          Forall (fun i => ~ isKneeValgus i /\ message i <> kneeValgusMessage)
                 (fst acc))
      /\ (kneeTracking metrics == 0.1500001 ->
          Exists (fun i => isKneeValgus i /\ message i = kneeValgusMessage)
                 (fst acc)).
Proof.
  intros metrics stability s.
  destruct (keepsHistory_squatRules metrics stability s) as (acc & s' & E & _).
  exists acc, s'. split; [exact E|].
  unfold squatRules in E. split_rules E.
  split; intros Hk.
  - assert (Hc : (kneeTracking metrics >? 0.15) = false).
    { apply Qltb_ge. rewrite Hk. apply Qle_refl. }
    rewrite Hc in E0.
    eapply rule_Forall; [exact E| |].
    { intros _ ts. unfold isKneeValgus. simpl. split; [intros [H _]|]; discriminate. }
    eapply rule_Forall; [exact E4| |].
    { intros _ ts. unfold isKneeValgus. simpl. split; [intros [H _]|]; discriminate. }
    eapply rule_Forall; [exact E3| |].
    { intros _ ts. unfold isKneeValgus. simpl. split; [intros [H _]|]; discriminate. }
    eapply rule_Forall; [exact E2| |].
    { intros _ ts. unfold isKneeValgus. simpl. split; [intros [H _]|]; discriminate. }
    eapply rule_Forall; [exact E1| |].
    { intros _ ts. unfold isKneeValgus. simpl.
      split; [intros [_ H]; revert H; unfold Qeq; simpl; lia | discriminate]. }
    eapply rule_Forall; [exact E0| |].
    { discriminate. }
    constructor.
  - assert (Hc : (kneeTracking metrics >? 0.15) = true).
    { apply Qltb_lt. rewrite Hk. reflexivity. }
    eapply rule_Exists; [exact E|].
    eapply rule_Exists; [exact E4|].
    eapply rule_Exists; [exact E3|].
    eapply rule_Exists; [exact E2|].
    eapply rule_Exists; [exact E1|].
    eapply rule_fires; [exact E0 | exact Hc |].
    intros ts. unfold isKneeValgus. simpl. repeat split; reflexivity.
Qed.

(** ** Metrics derivation *)

Lemma calculateSquatMetrics_host (s1 s2 : Machine) :
  Date_now (clockReads s1) = Date_now (clockReads s2) ->
  Math_random (randomDraws s1) = Math_random (randomDraws s2) ->
  exists m s1' s2',
    calculateSquatMetrics s1 = Ok (m, s1') /\ calculateSquatMetrics s2 = Ok (m, s2').
Proof.
  intros Hc Hr. unfold calculateSquatMetrics, bind, now, random, ret.
  cbn [clockReads randomDraws frameHistory]. rewrite Hc, Hr.
  eexists. eexists. eexists. split; reflexivity.
Qed.

Lemma calculateSittingMetrics_host (s1 s2 : Machine) :
  Date_now (clockReads s1) = Date_now (clockReads s2) ->
  Math_random (randomDraws s1) = Math_random (randomDraws s2) ->
  exists m s1' s2',
    calculateSittingMetrics s1 = Ok (m, s1') /\ calculateSittingMetrics s2 = Ok (m, s2').
Proof.
  intros Hc Hr. unfold calculateSittingMetrics, bind, now, random, ret.
  cbn [clockReads randomDraws frameHistory]. rewrite Hc, Hr.
  eexists. eexists. eexists. split; reflexivity.
Qed.

(** C7, as amended.  The derived metrics are a function of what the host's
    clock and random source return at that call, and of nothing else: two
    calls that read the same clock value and the same random draw give the
    same [PostureMetrics], whatever the landmarks, the frame numbers and the
    stored histories. *)
Theorem metrics_determined_by_host_readings :
  forall landmarks1 landmarks2 frameNumber1 frameNumber2 s1 s2,
    Date_now (clockReads s1) = Date_now (clockReads s2) ->
    Math_random (randomDraws s1) = Math_random (randomDraws s2) ->
    (exists a1 s1' a2 s2',
        analyzeSquatPosture landmarks1 frameNumber1 s1 = Ok (a1, s1')
        /\ analyzeSquatPosture landmarks2 frameNumber2 s2 = Ok (a2, s2')
        /\ metrics a1 = metrics a2)
    /\ (exists a1 s1' a2 s2',
        analyzeSittingPosture landmarks1 frameNumber1 s1 = Ok (a1, s1')
        /\ analyzeSittingPosture landmarks2 frameNumber2 s2 = Ok (a2, s2')
        /\ metrics a1 = metrics a2).
Proof.
  intros l1 l2 f1 f2 s1 s2 Hc Hr. split.
  - destruct (analyzeSquatPosture_run l1 f1 s1)
      as (m1 & t1 & st1 & acc1 & s1' & D1 & _ & E1 & _).
    destruct (analyzeSquatPosture_run l2 f2 s2)
      as (m2 & t2 & st2 & acc2 & s2' & D2 & _ & E2 & _).
    destruct (calculateSquatMetrics_host s1 s2 Hc Hr) as (m & u1 & u2 & F1 & F2).
    eexists. exists s1'. eexists. exists s2'.
    split; [exact E1|]. split; [exact E2|]. simpl. congruence.
  - destruct (analyzeSittingPosture_run l1 f1 s1)
      as (m1 & t1 & st1 & acc1 & s1' & D1 & _ & E1 & _).
    destruct (analyzeSittingPosture_run l2 f2 s2)
      as (m2 & t2 & st2 & acc2 & s2' & D2 & _ & E2 & _).
    destruct (calculateSittingMetrics_host s1 s2 Hc Hr) as (m & u1 & u2 & F1 & F2).
    eexists. exists s1'. eexists. exists s2'.
    split; [exact E1|]. split; [exact E2|]. simpl. congruence.
Qed.

(** ** Landmarks *)

(** C8, as amended.  The engine does not read the landmarks: for every
    landmarks array, one with a required landmark missing and the empty one
    included, both public methods return an analysis and raise no error, and
    that analysis is the one any other landmarks array gives. *)
Theorem landmarks_are_not_read :
  forall landmarks frameNumber s,
    (exists a s',
        analyzeSquatPosture landmarks frameNumber s = Ok (a, s')
        /\ forall landmarks',
             analyzeSquatPosture landmarks' frameNumber s = Ok (a, s'))
    /\ (exists a s',
        analyzeSittingPosture landmarks frameNumber s = Ok (a, s')
        /\ forall landmarks',
             analyzeSittingPosture landmarks' frameNumber s = Ok (a, s')).
Proof.
  intros landmarks frameNumber s. split.
  - destruct (analyzeSquatPosture_run landmarks frameNumber s)
      as (m & s0 & st & acc & s' & _ & _ & E & _).
    eexists. exists s'. split; [exact E|]. intros landmarks'.
    rewrite analyzeSquatPosture_shape.
    rewrite analyzeSquatPosture_shape in E. exact E.
  - destruct (analyzeSittingPosture_run landmarks frameNumber s)
      as (m & s0 & st & acc & s' & _ & _ & E & _).
    eexists. exists s'. split; [exact E|]. intros landmarks'.
    rewrite analyzeSittingPosture_shape.
    rewrite analyzeSittingPosture_shape in E. exact E.
Qed.

(** ** The frame history *)



(** ** Totality *)

(** C10.  From any state, for any landmarks array and any frame number,
    both public methods return an analysis: no run ends in a thrown error
    or leaves the finite numbers.  The same holds of [calculateStability]
    in any state and of [calculateVariance] on the non-empty arrays the
    engine gives it. *)
Theorem analysis_always_returns :
  (forall landmarks frameNumber s,
      (exists a s', analyzeSquatPosture landmarks frameNumber s = Ok (a, s'))
      /\ (exists a s', analyzeSittingPosture landmarks frameNumber s = Ok (a, s')))
  /\ (forall s, exists v, calculateStability s = Ok (v, s))
  /\ (forall x values s, exists v, calculateVariance (x :: values) s = Ok (v, s)).
Proof.
  split; [|split].
  - intros landmarks frameNumber s. split.
    + destruct (analyzeSquatPosture_run landmarks frameNumber s)
        as (m & s0 & st & acc & s' & _ & _ & E & _).
      eexists. exists s'. exact E.
    + destruct (analyzeSittingPosture_run landmarks frameNumber s)
        as (m & s0 & st & acc & s' & _ & _ & E & _).
      eexists. exists s'. exact E.
  - intros s. destruct (calculateStability_run s) as (v & E & _).
    exists v. exact E.
  - intros x values s.
    destruct (calculateVariance_run (x :: values) s) as (v & E & _);
      [discriminate|].
    exists v. exact E.
Qed.

(** ** Rule tables *)

Lemma squatRules_table (m : PostureMetrics) (st : Q) :
  squatRules m st = runRules (squatTable m st) ([], []).
Proof. reflexivity. Qed.

Lemma sittingRules_table (m : PostureMetrics) (st : Q) :
  sittingRules m st = runRules (sittingTable m st) ([], []).
Proof. reflexivity. Qed.

Lemma rule_full (r : Rule) (acc : Locals) (s : Machine) :
  rule (cond r) (issueOf r) (advice r) acc s
  = Ok ((fst acc ++ stamp Date_now (clockReads s) (fired [r]),
         snd acc ++ advices (fired [r])),
        mkMachine (frameHistory s) (clockReads s + length (fired [r]))
          (randomDraws s)).
Proof.
  unfold rule, fired. simpl. destruct (cond r); simpl.
  - unfold bind, now, ret. simpl. rewrite Nat.add_1_r.
    destruct (advice r); simpl; rewrite ?app_nil_r; reflexivity.
  - unfold ret. rewrite !app_nil_r, Nat.add_0_r.
    destruct acc, s; reflexivity.
Qed.

Lemma stamp_app (c : nat) (l l' : list Rule) :
  stamp Date_now c (l ++ l') = stamp Date_now c l ++ stamp Date_now (c + length l) l'.
Proof.
  revert c. induction l as [|r l IH]; intros c; simpl.
  - rewrite Nat.add_0_r. reflexivity.
  - rewrite IH. simpl. rewrite Nat.add_succ_r. reflexivity.
Qed.

Lemma advices_app (l l' : list Rule) : advices (l ++ l') = advices l ++ advices l'.
Proof.
  induction l as [|r l IH]; simpl; [reflexivity|].
  destruct (advice r); simpl; rewrite IH; reflexivity.
Qed.

Lemma fired_cons (r : Rule) (l : list Rule) : fired (r :: l) = fired [r] ++ fired l.
Proof. unfold fired. simpl. destruct (cond r); reflexivity. Qed.

Lemma runRules_run (rs : list Rule) (acc : Locals) (s : Machine) :
  runRules rs acc s
  = Ok ((fst acc ++ stamp Date_now (clockReads s) (fired rs),
         snd acc ++ advices (fired rs)),
        mkMachine (frameHistory s) (clockReads s + length (fired rs))
          (randomDraws s)).
Proof.
  revert acc s. induction rs as [|r rs IH]; intros acc s.
  - simpl. unfold ret. rewrite !app_nil_r, Nat.add_0_r. destruct acc, s; reflexivity.
  - destruct rs as [|r' rs'].
    + exact (rule_full r acc s).
    + change (runRules (r :: r' :: rs') acc s)
        with (bind (rule (cond r) (issueOf r) (advice r) acc)
                (fun acc' => runRules (r' :: rs') acc') s).
      rewrite (bind_Ok _ _ _ _ _ (rule_full r acc s)), IH.
      rewrite (fired_cons r (r' :: rs')).
      cbn [fst snd clockReads frameHistory randomDraws].
      rewrite stamp_app, advices_app, length_app, <- !app_assoc, Nat.add_assoc.
      reflexivity.
Qed.

Lemma calculateSquatMetrics_value (s : Machine) :
  calculateSquatMetrics s
  = Ok (squatMetricsFrom
          (Math_sin (inject_Z (Date_now (clockReads s)) / 4000))
          ((Math_random (randomDraws s) - 0.5) * 0.1),
        mkMachine (frameHistory s) (S (clockReads s)) (S (randomDraws s))).
Proof. reflexivity. Qed.

Lemma calculateSittingMetrics_value (s : Machine) :
  calculateSittingMetrics s
  = Ok (sittingMetricsFrom
          (Math_sin (inject_Z (Date_now (clockReads s)) / 6000))
          ((Math_random (randomDraws s) - 0.5) * 0.1),
        mkMachine (frameHistory s) (S (clockReads s)) (S (randomDraws s))).
Proof. reflexivity. Qed.

(** One call, step by step: the derived metrics [m], the stability [st] of
    the history once [m] is stored, and the table of the mode run on them. *)
Lemma analyzeWith_trace (derive : M PostureMetrics)
    (table : PostureMetrics -> Q -> list Rule)
    (score : PostureMetrics -> list PostureIssue -> Q)
    (frameNumber : Q) (s : Machine) (m : PostureMetrics) :
  derive s = Ok (m, mkMachine (frameHistory s) (S (clockReads s)) (S (randomDraws s))) ->
  exists st,
    0 <= st <= 1
    /\ ((length (pushed (frameHistory s) m) < 2)%nat -> st = 0.5)
    /\ ((2 <= length (pushed (frameHistory s) m))%nat ->
        st == stabilityFrom varianceOfSamples (pushed (frameHistory s) m))
    /\ analyzeWith derive (fun m st => runRules (table m st) ([], [])) score
         frameNumber s
       = Ok ({| isGoodPosture :=
                  goodVerdict (stamp Date_now (S (clockReads s)) (fired (table m st)))
                    (score m (stamp Date_now (S (clockReads s)) (fired (table m st))));
                overallScore :=
                  score m (stamp Date_now (S (clockReads s)) (fired (table m st)));
                issues := stamp Date_now (S (clockReads s)) (fired (table m st));
                metrics := m;
                confidence := calculateConfidence st frameNumber;
                recommendations := Set_spread [] (advices (fired (table m st))) |},
             mkMachine (pushed (frameHistory s) m)
               (S (clockReads s) + length (fired (table m st)))
               (S (randomDraws s))).
Proof.
  intros E0.
  pose proof (storeFrame_run m
                (mkMachine (frameHistory s) (S (clockReads s)) (S (randomDraws s))))
    as E1.
  cbn [frameHistory clockReads randomDraws] in E1.
  fold (pushed (frameHistory s) m) in E1.
  destruct (calculateStability_run
              (mkMachine (pushed (frameHistory s) m)
                 (S (clockReads s)) (S (randomDraws s))))
    as (st & E2 & Hst & Hlt & Hge).
  cbn [frameHistory] in Hlt, Hge.
  exists st. split; [exact Hst|]. split; [exact Hlt|]. split; [exact Hge|].
  unfold analyzeWith.
  rewrite (bind_Ok _ _ _ _ _ E0), (bind_Ok _ _ _ _ _ E1), (bind_Ok _ _ _ _ _ E2).
  unfold bind at 1. rewrite runRules_run. reflexivity.
Qed.

Lemma analyzeSquatPosture_trace (landmarks : list JsValue) (frameNumber : Q)
    (s : Machine) :
  exists st,
    0 <= st <= 1
    /\ ((length (pushed (frameHistory s) (squatReading s)) < 2)%nat -> st = 0.5)
    /\ ((2 <= length (pushed (frameHistory s) (squatReading s)))%nat ->
        st == stabilityFrom varianceOfSamples
                (pushed (frameHistory s) (squatReading s)))
    /\ analyzeSquatPosture landmarks frameNumber s
       = Ok ({| isGoodPosture :=
                  goodVerdict
                    (stamp Date_now (S (clockReads s))
                       (fired (squatTable (squatReading s) st)))
                    (calculateSquatScore (squatReading s)
                       (stamp Date_now (S (clockReads s))
                          (fired (squatTable (squatReading s) st))));
                overallScore :=
                  calculateSquatScore (squatReading s)
                    (stamp Date_now (S (clockReads s))
                       (fired (squatTable (squatReading s) st)));
                issues := stamp Date_now (S (clockReads s))
                            (fired (squatTable (squatReading s) st));
                metrics := squatReading s;
                confidence := calculateConfidence st frameNumber;
                recommendations :=
                  Set_spread [] (advices (fired (squatTable (squatReading s) st))) |},
             mkMachine (pushed (frameHistory s) (squatReading s))
               (S (clockReads s) + length (fired (squatTable (squatReading s) st)))
               (S (randomDraws s))).
Proof.
  exact (analyzeWith_trace calculateSquatMetrics squatTable calculateSquatScore
           frameNumber s (squatReading s) (calculateSquatMetrics_value s)).
Qed.

Lemma analyzeSittingPosture_trace (landmarks : list JsValue) (frameNumber : Q)
    (s : Machine) :
  exists st,
    0 <= st <= 1
    /\ ((length (pushed (frameHistory s) (sittingReading s)) < 2)%nat -> st = 0.5)
    /\ ((2 <= length (pushed (frameHistory s) (sittingReading s)))%nat ->
        st == stabilityFrom varianceOfSamples
                (pushed (frameHistory s) (sittingReading s)))
    /\ analyzeSittingPosture landmarks frameNumber s
       = Ok ({| isGoodPosture :=
                  goodVerdict
                    (stamp Date_now (S (clockReads s))
                       (fired (sittingTable (sittingReading s) st)))
                    (calculateSittingScore (sittingReading s)
                       (stamp Date_now (S (clockReads s))
                          (fired (sittingTable (sittingReading s) st))));
                overallScore :=
                  calculateSittingScore (sittingReading s)
                    (stamp Date_now (S (clockReads s))
                       (fired (sittingTable (sittingReading s) st)));
                issues := stamp Date_now (S (clockReads s))
                            (fired (sittingTable (sittingReading s) st));
                metrics := sittingReading s;
                confidence := calculateConfidence st frameNumber;
                recommendations :=
                  Set_spread []
                    (advices (fired (sittingTable (sittingReading s) st))) |},
             mkMachine (pushed (frameHistory s) (sittingReading s))
               (S (clockReads s) + length (fired (sittingTable (sittingReading s) st)))
               (S (randomDraws s))).
Proof.
  exact (analyzeWith_trace calculateSittingMetrics sittingTable calculateSittingScore
           frameNumber s (sittingReading s) (calculateSittingMetrics_value s)).
Qed.

(** ** Facts about stamped issues *)

Lemma stamp_In (clock : nat -> Z) (c : nat) (l : list Rule) (i : PostureIssue) :
  In i (stamp clock c l) -> exists r ts, In r l /\ i = issueOf r ts.
Proof.
  revert c. induction l as [|r l IH]; intros c; simpl; [intros []|].
  intros [<-|H].
  - exists r, (clock c). split; [left; reflexivity | reflexivity].
  - destruct (IH _ H) as (r' & ts & Hr & E). exists r', ts. split; [right|]; assumption.
Qed.

Lemma stamp_fires (clock : nat -> Z) (c : nat) (l : list Rule) (r : Rule) :
  In r l -> exists ts, In (issueOf r ts) (stamp clock c l).
Proof.
  revert c. induction l as [|r' l IH]; intros c; simpl; [intros []|].
  intros [->|H].
  - exists (clock c). left. reflexivity.
  - destruct (IH (S c) H) as (ts & Hts). exists ts. right. exact Hts.
Qed.

Lemma fired_In (l : list Rule) (r : Rule) : In r (fired l) <-> In r l /\ cond r = true.
Proof. apply filter_In. Qed.

Lemma stamp_length (clock : nat -> Z) (c : nat) (l : list Rule) :
  length (stamp clock c l) = length l.
Proof. revert c. induction l as [|r l IH]; intros c; simpl; [|rewrite IH]; reflexivity. Qed.

Lemma fired_sorted (l : list Rule) :
  StronglySorted byWeight l -> StronglySorted byWeight (fired l).
Proof.
  induction 1 as [|r l _ IH Hr]; simpl; [constructor|].
  destruct (cond r); [|exact IH].
  constructor; [exact IH|].
  apply Forall_forall. intros r' Hr'. apply fired_In in Hr'.
  rewrite Forall_forall in Hr. apply Hr. apply Hr'.
Qed.

Lemma stamp_sorted (clock : nat -> Z) (c : nat) (l : list Rule) :
  StronglySorted byWeight l -> StronglySorted bySeverity (stamp clock c l).
Proof.
  intros H. revert c. induction H as [|r l _ IH Hr]; intros c; simpl; constructor.
  - apply IH.
  - apply Forall_forall. intros i Hi.
    destruct (stamp_In _ _ _ _ Hi) as (r' & ts & Hr' & ->).
    rewrite Forall_forall in Hr. exact (Hr r' Hr').
Qed.

Lemma squatTable_sorted (m : PostureMetrics) (st : Q) :
  StronglySorted byWeight (squatTable m st).
Proof.
  unfold squatTable.
  repeat (constructor; [|repeat (constructor; [unfold byWeight; simpl; lra|]);
                         constructor]).
  constructor.
Qed.

Lemma sittingTable_sorted (m : PostureMetrics) (st : Q) :
  StronglySorted byWeight (sittingTable m st).
Proof.
  unfold sittingTable.
  repeat (constructor; [|repeat (constructor; [unfold byWeight; simpl; lra|]);
                         constructor]).
  constructor.
Qed.

(** X1.  The issues of an analysis come in descending order of severity, in
    both modes: the first one, if any, is the most severe. *)
Theorem issues_by_descending_severity :
  forall landmarks frameNumber s,
    (exists a s',
        analyzeSquatPosture landmarks frameNumber s = Ok (a, s')
        /\ StronglySorted bySeverity (issues a))
    /\ (exists a s',
        analyzeSittingPosture landmarks frameNumber s = Ok (a, s')
        /\ StronglySorted bySeverity (issues a)).
Proof.
  intros landmarks frameNumber s. split.
  - destruct (analyzeSquatPosture_trace landmarks frameNumber s)
      as (st & _ & _ & _ & E).
    eexists. eexists. split; [exact E|]. cbn [issues].
    apply stamp_sorted, fired_sorted, squatTable_sorted.
  - destruct (analyzeSittingPosture_trace landmarks frameNumber s)
      as (st & _ & _ & _ & E).
    eexists. eexists. split; [exact E|]. cbn [issues].
    apply stamp_sorted, fired_sorted, sittingTable_sorted.
Qed.

(** X2.  The first call on an engine whose history is empty always reports
    the minor stability issue of its mode, whatever the metrics, and its
    confidence is the one of stability 0.5: one frame is not enough to
    judge stability. *)
Theorem first_call_reports_instability :
  forall landmarks frameNumber s,
    frameHistory s = [] ->
    (exists a s',
        analyzeSquatPosture landmarks frameNumber s = Ok (a, s')
        /\ (exists i, In i (issues a) /\ type i = minor
                      /\ message i = "Movement instability detected"%string)
        /\ confidence a = calculateConfidence 0.5 frameNumber)
    /\ (exists a s',
        analyzeSittingPosture landmarks frameNumber s = Ok (a, s')
        /\ (exists i, In i (issues a) /\ type i = minor
                      /\ message i
                         = "Frequent position changes - consider ergonomic adjustments"%string)
        /\ confidence a = calculateConfidence 0.5 frameNumber).
Proof.
  intros landmarks frameNumber s Hs. split.
  - destruct (analyzeSquatPosture_trace landmarks frameNumber s)
      as (st & _ & Hlt & _ & E).
    rewrite Hs in Hlt. specialize (Hlt (Nat.lt_succ_diag_r 1)). subst st.
    eexists. eexists. split; [exact E|]. cbn [issues confidence].
    split; [|reflexivity].
    destruct (stamp_fires Date_now (S (clockReads s))
                (fired (squatTable (squatReading s) 0.5))
                (mkRule (0.5 <? 0.6) minor "Movement instability detected" 3
                   "Focus on controlled movement. Strengthen core and stabilizer muscles."
                   None)) as (ts & Hts).
    { apply fired_In. split; [|reflexivity]. simpl. tauto. }
    eexists. split; [exact Hts|]. split; reflexivity.
  - destruct (analyzeSittingPosture_trace landmarks frameNumber s)
      as (st & _ & Hlt & _ & E).
    rewrite Hs in Hlt. specialize (Hlt (Nat.lt_succ_diag_r 1)). subst st.
    eexists. eexists. split; [exact E|]. cbn [issues confidence].
    split; [|reflexivity].
    destruct (stamp_fires Date_now (S (clockReads s))
                (fired (sittingTable (sittingReading s) 0.5))
                (mkRule (0.5 <? 0.7) minor
                   "Frequent position changes - consider ergonomic adjustments" 2
                   "Take regular movement breaks every 30 minutes."
                   None)) as (ts & Hts).
    { apply fired_In. split; [|reflexivity]. simpl. tauto. }
    eexists. split; [exact Hts|]. split; reflexivity.
Qed.

(** ** The good-form rules *)

Ltac table_cases H :=
  unfold squatTable, sittingTable in H; cbn [In] in H;
  repeat (destruct H as [<-|H]; [|]); [..|destruct H].

Ltac no_kind :=
  let j := fresh "j" in
  let Hj := fresh "Hj" in
  let Hk := fresh "Hk" in
  intros (j & Hj & Hk); cbn in Hj;
  repeat (destruct Hj as [<-|Hj]; [discriminate Hk|]); exact Hj.

Lemma squat_good_score (m : PostureMetrics) (st : Q) (c : nat) :
  hasKind good (stamp Date_now c (fired (squatTable m st))) ->
  calculateSquatScore m (stamp Date_now c (fired (squatTable m st))) == 100
  /\ goodVerdict (stamp Date_now c (fired (squatTable m st)))
       (calculateSquatScore m (stamp Date_now c (fired (squatTable m st)))) = true
  /\ ~ hasKind critical (stamp Date_now c (fired (squatTable m st))).
Proof.
  intros (i & Hi & Ht).
  destruct (stamp_In _ _ _ _ Hi) as (r & ts & Hr & ->).
  apply fired_In in Hr. destruct Hr as [Hr Hc].
  table_cases Hr; try discriminate Ht.
  cbn [cond] in Hc. apply andb_true_iff in Hc. destruct Hc as [Hc Hb].
  apply andb_true_iff in Hc. destruct Hc as [Hd Hk].
  assert (H1 : (kneeTracking m >? 0.15) = false).
  { apply Qltb_ge. apply Qltb_lt in Hk. lra. }
  assert (H2 : (backCurvature m >? 0.4) = false).
  { apply Qltb_ge. apply Qltb_lt in Hb. lra. }
  assert (H3 : (squatDepth m <? 0.3) = false).
  { apply Qltb_ge. apply Qltb_lt in Hd. lra. }
  unfold squatTable, calculateSquatScore, goodVerdict.
  rewrite H1, H2, H3, Hd, Hk, Hb.
  destruct (shoulderAlignment m >? 0.1), (st <? 0.6), (overallStability m >? 0.8);
    (split; [vm_compute; reflexivity | split; [vm_compute; reflexivity | no_kind]]).
Qed.

Lemma sitting_good_score (m : PostureMetrics) (st : Q) (c : nat) :
  hasKind good (stamp Date_now c (fired (sittingTable m st))) ->
  calculateSittingScore m (stamp Date_now c (fired (sittingTable m st))) == 100
  /\ goodVerdict (stamp Date_now c (fired (sittingTable m st)))
       (calculateSittingScore m (stamp Date_now c (fired (sittingTable m st)))) = true
  /\ ~ hasKind critical (stamp Date_now c (fired (sittingTable m st)))
  /\ ~ hasKind warning (stamp Date_now c (fired (sittingTable m st))).
Proof.
  intros (i & Hi & Ht).
  destruct (stamp_In _ _ _ _ Hi) as (r & ts & Hr & ->).
  apply fired_In in Hr. destruct Hr as [Hr Hc].
  table_cases Hr; try discriminate Ht.
  cbn [cond] in Hc. apply andb_true_iff in Hc. destruct Hc as [Hc Hs].
  apply andb_true_iff in Hc. destruct Hc as [Hn Hb].
  assert (H1 : (neckAngle m >? 35) = false).
  { apply Qltb_ge. apply Qltb_lt in Hn. lra. }
  assert (H2 : (backCurvature m >? 0.5) = false).
  { apply Qltb_ge. apply Qltb_lt in Hb. lra. }
  assert (H3 : (neckAngle m >? 20) = false).
  { apply Qltb_ge. apply Qltb_lt in Hn. lra. }
  assert (H4 : (shoulderAlignment m >? 0.08) = false).
  { apply Qltb_ge. apply Qltb_lt in Hs. lra. }
  assert (H5 : (backCurvature m >? 0.25) = false).
  { apply Qltb_ge. apply Qltb_lt in Hb. lra. }
  unfold sittingTable, calculateSittingScore, goodVerdict.
  rewrite H1, H2, H3, H4, H5, Hn, Hb, Hs.
  destruct (st <? 0.7), (overallStability m >? 0.8);
    (split; [vm_compute; reflexivity
            | split; [vm_compute; reflexivity | split; no_kind]]).
Qed.

(** X3.  For every metrics vector, when the rules of a mode report the
    good-form issue the score of that vector is 100, the verdict is good and
    no critical issue is reported (nor, in sitting mode, any warning): the
    good-form conditions exclude the critical ones and earn bonuses that
    outweigh every deduction left. *)
Theorem good_form_gives_full_score :
  forall metrics stability s,
    (exists acc s',
        squatRules metrics stability s = Ok (acc, s')
        /\ (hasKind good (fst acc) ->
            calculateSquatScore metrics (fst acc) == 100
            /\ goodVerdict (fst acc) (calculateSquatScore metrics (fst acc)) = true
            /\ ~ hasKind critical (fst acc)))
    /\ (exists acc s',
        sittingRules metrics stability s = Ok (acc, s')
        /\ (hasKind good (fst acc) ->
            calculateSittingScore metrics (fst acc) == 100
            /\ goodVerdict (fst acc) (calculateSittingScore metrics (fst acc)) = true
            /\ ~ hasKind critical (fst acc)
            /\ ~ hasKind warning (fst acc))).
Proof.
  intros metrics stability s. split.
  - rewrite squatRules_table, runRules_run. eexists. eexists.
    split; [reflexivity|]. cbn [fst app]. apply squat_good_score.
  - rewrite sittingRules_table, runRules_run. eexists. eexists.
    split; [reflexivity|]. cbn [fst app]. apply sitting_good_score.
Qed.

(** ** The simulated metrics *)




Lemma squatMetrics_ranges (c n : Q) :
  neckAngle (squatMetricsFrom c n) = 0
  /\ 0 <= kneeTracking (squatMetricsFrom c n)
  /\ 0 <= squatDepth (squatMetricsFrom c n) <= 1
  /\ 0 <= backCurvature (squatMetricsFrom c n)
  /\ 0 <= shoulderAlignment (squatMetricsFrom c n)
  /\ 0 <= hipAlignment (squatMetricsFrom c n)
  /\ 0.3 <= overallStability (squatMetricsFrom c n) <= 1.
Proof.
  unfold squatMetricsFrom. cbn [neckAngle kneeTracking squatDepth backCurvature
    shoulderAlignment hipAlignment overallStability].
  split; [reflexivity|].
  split; [apply Q.le_max_l|].
  split; [apply clamp_range; lra|].
  split; [apply Q.le_max_l|].
  split; [apply Qabs_nonneg|].
  split; [apply Qabs_nonneg|].
  split; [apply Q.le_max_l|].
  apply Q.max_lub; [lra|].
  pose proof (Qabs_nonneg (n * 2)) as H. unfold Math_abs. lra.
Qed.

Lemma sittingMetrics_ranges (c n : Q) :
  0 <= neckAngle (sittingMetricsFrom c n) <= 60
  /\ 0 <= backCurvature (sittingMetricsFrom c n) <= 1
  /\ 0 <= shoulderAlignment (sittingMetricsFrom c n)
  /\ 0 <= hipAlignment (sittingMetricsFrom c n)
  /\ kneeTracking (sittingMetricsFrom c n) = 0
  /\ squatDepth (sittingMetricsFrom c n) = 0
  /\ 0.5 <= overallStability (sittingMetricsFrom c n) <= 1.
Proof.
  unfold sittingMetricsFrom. cbn [neckAngle kneeTracking squatDepth backCurvature
    shoulderAlignment hipAlignment overallStability].
  split; [apply clamp_range; lra|].
  split; [apply clamp_range; lra|].
  split; [apply Qabs_nonneg|].
  split; [apply Qabs_nonneg|].
  split; [reflexivity|]. split; [reflexivity|].
  split; [apply Q.le_max_l|].
  apply Q.max_lub; [lra|].
  pose proof (Qabs_nonneg (n * 1.5)) as H. unfold Math_abs. lra.
Qed.

(** X4.  Whatever the host returns, the metrics of a squat analysis have
    [neckAngle] 0, [squatDepth] in [0,1], [overallStability] in [0.3,1] and
    the other fields non-negative; those of a sitting analysis have
    [neckAngle] in [0,60], [backCurvature] in [0,1], [kneeTracking] and
    [squatDepth] 0, [overallStability] in [0.5,1] and the other fields
    non-negative. *)
Theorem derived_metrics_ranges :
  forall landmarks frameNumber s,
    (exists a s',
        analyzeSquatPosture landmarks frameNumber s = Ok (a, s')
        /\ neckAngle (metrics a) = 0
        /\ 0 <= kneeTracking (metrics a)
        /\ 0 <= squatDepth (metrics a) <= 1
        /\ 0 <= backCurvature (metrics a)
        /\ 0 <= shoulderAlignment (metrics a)
        /\ 0 <= hipAlignment (metrics a)
        /\ 0.3 <= overallStability (metrics a) <= 1)
    /\ (exists a s',
        analyzeSittingPosture landmarks frameNumber s = Ok (a, s')
        /\ 0 <= neckAngle (metrics a) <= 60
        /\ 0 <= backCurvature (metrics a) <= 1
        /\ 0 <= shoulderAlignment (metrics a)
        /\ 0 <= hipAlignment (metrics a)
        /\ kneeTracking (metrics a) = 0
        /\ squatDepth (metrics a) = 0
        /\ 0.5 <= overallStability (metrics a) <= 1).
Proof.
  intros landmarks frameNumber s. split.
  - destruct (analyzeSquatPosture_trace landmarks frameNumber s)
      as (st & _ & _ & _ & E).
    eexists. eexists. split; [exact E|]. cbn [metrics]. unfold squatReading.
    apply squatMetrics_ranges.
  - destruct (analyzeSittingPosture_trace landmarks frameNumber s)
      as (st & _ & _ & _ & E).
    eexists. eexists. split; [exact E|]. cbn [metrics]. unfold sittingReading.
    apply sittingMetrics_ranges.
Qed.






(** ** Bounds on the issue list and on the score *)

Lemma deductIssues_stamp (x : Q) (c : nat) (l : list Rule) :
  deductIssues x (stamp Date_now c l) = fold_left (fun sc r => sc - weight r * 2) l x.
Proof.
  unfold deductIssues. revert x c.
  induction l as [|r l IH]; intros x c; simpl; [reflexivity|]. apply IH.
Qed.

Lemma calculateSquatScore_lower (m : PostureMetrics) (l : list PostureIssue) (b : Q) :
  b <= 100 -> b <= deductIssues 100 l -> b <= calculateSquatScore m l.
Proof.
  intros Hb Hd. unfold calculateSquatScore. cbv zeta. unfold Math_max, Math_min.
  apply Q.max_le_iff. right. apply Q.min_glb; [exact Hb|].
  destruct (squatDepth m >? 0.7), (kneeTracking m <? 0.05),
    (backCurvature m <? 0.2), (overallStability m >? 0.8); lra.
Qed.

Lemma calculateSittingScore_lower (m : PostureMetrics) (l : list PostureIssue) (b : Q) :
  b <= 100 -> b <= deductIssues 100 l -> b <= calculateSittingScore m l.
Proof.
  intros Hb Hd. unfold calculateSittingScore. cbv zeta. unfold Math_max, Math_min.
  apply Q.max_le_iff. right. apply Q.min_glb; [exact Hb|].
  destruct (neckAngle m <? 15), (backCurvature m <? 0.2),
    (shoulderAlignment m <? 0.05), (overallStability m >? 0.8); lra.
Qed.

Lemma neck_tiers_exclusive (x : Q) :
  (x >? 35) && ((x >? 20) && (x <=? 35)) = false.
Proof.
  destruct (x >? 35) eqn:H1; [|reflexivity].
  destruct (x <=? 35) eqn:H2; [|apply andb_false_r].
  apply Qltb_lt in H1. apply Qle_bool_iff in H2. lra.
Qed.

Lemma back_tiers_exclusive (x : Q) :
  (x >? 0.5) && ((x >? 0.25) && (x <=? 0.5)) = false.
Proof.
  destruct (x >? 0.5) eqn:H1; [|reflexivity].
  destruct (x <=? 0.5) eqn:H2; [|apply andb_false_r].
  apply Qltb_lt in H1. apply Qle_bool_iff in H2. lra.
Qed.

Lemma squat_good_excludes_knee (m : PostureMetrics) :
  (kneeTracking m >? 0.15)
  && ((squatDepth m >? 0.7) && (kneeTracking m <? 0.05) && (backCurvature m <? 0.2))
  = false.
Proof.
  destruct (kneeTracking m >? 0.15) eqn:H1; [|reflexivity].
  destruct (kneeTracking m <? 0.05) eqn:H2;
    [|rewrite andb_false_r; reflexivity].
  apply Qltb_lt in H1. apply Qltb_lt in H2. lra.
Qed.

Lemma squat_deduction (m : PostureMetrics) (st : Q) (c : nat) :
  38 <= deductIssues 100 (stamp Date_now c (fired (squatTable m st))).
Proof.
  rewrite deductIssues_stamp. unfold squatTable.
  destruct (kneeTracking m >? 0.15), (backCurvature m >? 0.4),
    (squatDepth m <? 0.3), (shoulderAlignment m >? 0.1), (st <? 0.6),
    ((squatDepth m >? 0.7) && (kneeTracking m <? 0.05) && (backCurvature m <? 0.2));
    vm_compute; discriminate.
Qed.

Lemma sitting_deduction (m : PostureMetrics) (st : Q) (c : nat) :
  52 <= deductIssues 100 (stamp Date_now c (fired (sittingTable m st))).
Proof.
  rewrite deductIssues_stamp. unfold sittingTable.
  pose proof (neck_tiers_exclusive (neckAngle m)) as En.
  pose proof (back_tiers_exclusive (backCurvature m)) as Eb.
  revert En Eb.
  destruct (neckAngle m >? 35), (backCurvature m >? 0.5),
    ((neckAngle m >? 20) && (neckAngle m <=? 35)),
    (shoulderAlignment m >? 0.08),
    ((backCurvature m >? 0.25) && (backCurvature m <=? 0.5)), (st <? 0.7),
    ((neckAngle m <? 15) && (backCurvature m <? 0.2) && (shoulderAlignment m <? 0.05));
    intros En Eb; try discriminate En; try discriminate Eb;
    vm_compute; discriminate.
Qed.

(** X7.  The overall score of a squat analysis is never under 38 and that of
    a sitting analysis never under 52: the rules of a mode cannot deduct
    more, the two neck tiers and the two slouching tiers of the sitting mode
    being exclusive. *)
Theorem overallScore_lower_bound :
  forall landmarks frameNumber s,
    (exists a s',
        analyzeSquatPosture landmarks frameNumber s = Ok (a, s')
        /\ 38 <= overallScore a)
    /\ (exists a s',
        analyzeSittingPosture landmarks frameNumber s = Ok (a, s')
        /\ 52 <= overallScore a).
Proof.
  intros landmarks frameNumber s. split.
  - destruct (analyzeSquatPosture_trace landmarks frameNumber s)
      as (st & _ & _ & _ & E).
    eexists. eexists. split; [exact E|]. cbn [overallScore].
    apply calculateSquatScore_lower; [lra | apply squat_deduction].
  - destruct (analyzeSittingPosture_trace landmarks frameNumber s)
      as (st & _ & _ & _ & E).
    eexists. eexists. split; [exact E|]. cbn [overallScore].
    apply calculateSittingScore_lower; [lra | apply sitting_deduction].
Qed.

Lemma squat_fired_count (m : PostureMetrics) (st : Q) :
  (length (fired (squatTable m st)) <= 5)%nat.
Proof.
  unfold squatTable. pose proof (squat_good_excludes_knee m) as E. revert E.
  destruct (kneeTracking m >? 0.15), (backCurvature m >? 0.4),
    (squatDepth m <? 0.3), (shoulderAlignment m >? 0.1), (st <? 0.6),
    ((squatDepth m >? 0.7) && (kneeTracking m <? 0.05) && (backCurvature m <? 0.2));
    intros E; try discriminate E; simpl; lia.
Qed.

Lemma sitting_fired_count (m : PostureMetrics) (st : Q) :
  (length (fired (sittingTable m st)) <= 5)%nat.
Proof.
  unfold sittingTable.
  pose proof (neck_tiers_exclusive (neckAngle m)) as En.
  pose proof (back_tiers_exclusive (backCurvature m)) as Eb.
  revert En Eb.
  destruct (neckAngle m >? 35), (backCurvature m >? 0.5),
    ((neckAngle m >? 20) && (neckAngle m <=? 35)),
    (shoulderAlignment m >? 0.08),
    ((backCurvature m >? 0.25) && (backCurvature m <=? 0.5)), (st <? 0.7),
    ((neckAngle m <? 15) && (backCurvature m <? 0.2) && (shoulderAlignment m <? 0.05));
    intros En Eb; try discriminate En; try discriminate Eb; simpl; lia.
Qed.

(** X8.  An analysis reports at most 5 issues in either mode: of the 6 squat
    rules the knee rule and the good-form rule exclude each other, and of
    the 7 sitting rules the two neck tiers and the two slouching tiers
    do. *)
Theorem at_most_five_issues :
  forall landmarks frameNumber s,
    (exists a s',
        analyzeSquatPosture landmarks frameNumber s = Ok (a, s')
        /\ (length (issues a) <= 5)%nat)
    /\ (exists a s',
        analyzeSittingPosture landmarks frameNumber s = Ok (a, s')
        /\ (length (issues a) <= 5)%nat).
Proof.
  intros landmarks frameNumber s. split.
  - destruct (analyzeSquatPosture_trace landmarks frameNumber s)
      as (st & _ & _ & _ & E).
    eexists. eexists. split; [exact E|]. cbn [issues].
    rewrite stamp_length. apply squat_fired_count.
  - destruct (analyzeSittingPosture_trace landmarks frameNumber s)
      as (st & _ & _ & _ & E).
    eexists. eexists. split; [exact E|]. cbn [issues].
    rewrite stamp_length. apply sitting_fired_count.
Qed.

Ltac rule_of_message H :=
  let i := fresh "i" in
  let Hi := fresh "Hi" in
  let Hm := fresh "Hm" in
  let r := fresh "r" in
  let ts := fresh "ts" in
  let Hr := fresh "Hr" in
  destruct H as (i & Hi & Hm);
  destruct (stamp_In _ _ _ _ Hi) as (r & ts & Hr & ->);
  apply fired_In in Hr; destruct Hr as [Hr H];
  table_cases Hr; try (cbn in Hm; discriminate Hm); cbn [cond] in H; clear Hm Hi.

(** X9.  A sitting analysis never reports both neck issues (severe and
    moderate forward head posture), nor both slouching issues (excessive and
    mild): the warning tier stops where the critical tier starts. *)
Theorem sitting_tiers_exclusive :
  forall landmarks frameNumber s,
    exists a s',
      analyzeSittingPosture landmarks frameNumber s = Ok (a, s')
      /\ ~ (hasMessage "Severe forward head posture - tech neck risk!" (issues a)
            /\ hasMessage "Moderate forward head posture detected" (issues a))
      /\ ~ (hasMessage "Excessive slouching - spinal health at risk" (issues a)
            /\ hasMessage "Mild slouching detected" (issues a)).
Proof.
  intros landmarks frameNumber s.
  destruct (analyzeSittingPosture_trace landmarks frameNumber s)
    as (st & _ & _ & _ & E).
  eexists. eexists. split; [exact E|]. cbn [issues]. split.
  - intros [H1 H2]. rule_of_message H1. rule_of_message H2.
    pose proof (neck_tiers_exclusive (neckAngle (sittingReading s))) as En.
    rewrite H1, H2 in En. discriminate En.
  - intros [H1 H2]. rule_of_message H1. rule_of_message H2.
    pose proof (back_tiers_exclusive (backCurvature (sittingReading s))) as Eb.
    rewrite H1, H2 in Eb. discriminate Eb.
Qed.

(** ** Recommendations *)

Lemma existsb_eqb_In (x : string) (l : list string) :
  existsb (String.eqb x) l = true <-> In x l.
Proof.
  rewrite existsb_exists. split.
  - intros (y & Hy & E). apply String.eqb_eq in E. subst y. exact Hy.
  - intros H. exists x. split; [exact H | apply String.eqb_refl].
Qed.

Lemma Set_spread_In (seen l : list string) (x : string) :
  In x (Set_spread seen l) <-> In x l /\ ~ In x seen.
Proof using.
  revert seen. induction l as [|y l IH]; intros seen; simpl.
  - split; [intros [] | intros [[] _]].
  - destruct (existsb (String.eqb y) seen) eqn:E.
    + apply existsb_eqb_In in E. rewrite IH. split.
      * intros [H1 H2]. split; [right; exact H1 | exact H2].
      * intros [[->|H1] H2]; [contradiction | split; assumption].
    + assert (Hy : ~ In y seen).
      { intros H. apply existsb_eqb_In in H. congruence. }
      simpl. rewrite IH. simpl. split.
      * intros [<-|[H1 H2]].
        -- split; [left; reflexivity | exact Hy].
        -- split; [right; exact H1 | intros H; apply H2; right; exact H].
      * intros [[<-|H1] H2]; [left; reflexivity|].
        destruct (string_dec y x) as [->|Hne]; [left; reflexivity|].
        right. split; [exact H1|].
        intros [H|H]; [exact (Hne H) | exact (H2 H)].
Qed.

Lemma Set_spread_NoDup (seen l : list string) : NoDup (Set_spread seen l).
Proof.
  revert seen. induction l as [|y l IH]; intros seen; simpl; [constructor|].
  destruct (existsb (String.eqb y) seen); [apply IH|].
  constructor; [|apply IH].
  intros H. apply Set_spread_In in H. destruct H as [_ H]. apply H. left. reflexivity.
Qed.

Lemma Set_spread_length (seen l : list string) :
  (length (Set_spread seen l) <= length l)%nat.
Proof.
  revert seen. induction l as [|y l IH]; intros seen; simpl; [lia|].
  destruct (existsb (String.eqb y) seen); simpl.
  - specialize (IH seen). lia.
  - specialize (IH (y :: seen)). lia.
Qed.

Lemma advices_length (l : list Rule) : (length (advices l) <= length l)%nat.
Proof.
  induction l as [|r l IH]; simpl; [lia|]. destruct (advice r); simpl; lia.
Qed.

Lemma advices_fired_length (l : list Rule) :
  (length (advices (fired l)) <= length (advices l))%nat.
Proof.
  unfold fired. induction l as [|r l IH]; simpl; [lia|].
  destruct (cond r); simpl; destruct (advice r); simpl; lia.
Qed.

(** X10.  The recommendations of an analysis hold no string twice, are at
    most 3, and are no more than the issues reported. *)
Theorem recommendations_distinct_and_few :
  forall landmarks frameNumber s,
    (exists a s',
        analyzeSquatPosture landmarks frameNumber s = Ok (a, s')
        /\ NoDup (recommendations a)
        /\ (length (recommendations a) <= 3)%nat
        /\ (length (recommendations a) <= length (issues a))%nat)
    /\ (exists a s',
        analyzeSittingPosture landmarks frameNumber s = Ok (a, s')
        /\ NoDup (recommendations a)
        /\ (length (recommendations a) <= 3)%nat
        /\ (length (recommendations a) <= length (issues a))%nat).
Proof.
  intros landmarks frameNumber s. split.
  - destruct (analyzeSquatPosture_trace landmarks frameNumber s)
      as (st & _ & _ & _ & E).
    eexists. eexists. split; [exact E|]. cbn [issues recommendations].
    split; [apply Set_spread_NoDup|].
    pose proof (Set_spread_length [] (advices (fired (squatTable (squatReading s) st)))).
    pose proof (advices_fired_length (squatTable (squatReading s) st)) as H3.
    pose proof (advices_length (fired (squatTable (squatReading s) st))).
    rewrite stamp_length. change (length (advices (squatTable (squatReading s) st)))
      with 3%nat in H3. lia.
  - destruct (analyzeSittingPosture_trace landmarks frameNumber s)
      as (st & _ & _ & _ & E).
    eexists. eexists. split; [exact E|]. cbn [issues recommendations].
    split; [apply Set_spread_NoDup|].
    pose proof (Set_spread_length []
                  (advices (fired (sittingTable (sittingReading s) st)))).
    pose proof (advices_fired_length (sittingTable (sittingReading s) st)) as H3.
    pose proof (advices_length (fired (sittingTable (sittingReading s) st))).
    rewrite stamp_length. change (length (advices (sittingTable (sittingReading s) st)))
      with 3%nat in H3. lia.
Qed.

(** ** Reads of the host *)

Lemma stamp_timestamps (clock : nat -> Z) (c : nat) (l : list Rule) :
  map timestamp (stamp clock c l) = map clock (seq c (length l)).
Proof.
  revert c. induction l as [|r l IH]; intros c; simpl; [reflexivity|].
  rewrite IH. reflexivity.
Qed.

(** X11.  One analysis call draws exactly one random number and reads the
    clock once for the metrics and once more for each issue it reports; the
    timestamps of the issues are those later readings, in order. *)
Theorem host_reads_of_a_call :
  forall landmarks frameNumber s,
    (exists a s',
        analyzeSquatPosture landmarks frameNumber s = Ok (a, s')
        /\ randomDraws s' = S (randomDraws s)
        /\ clockReads s' = (clockReads s + 1 + length (issues a))%nat
        /\ map timestamp (issues a)
           = map Date_now (seq (S (clockReads s)) (length (issues a))))
    /\ (exists a s',
        analyzeSittingPosture landmarks frameNumber s = Ok (a, s')
        /\ randomDraws s' = S (randomDraws s)
        /\ clockReads s' = (clockReads s + 1 + length (issues a))%nat
        /\ map timestamp (issues a)
           = map Date_now (seq (S (clockReads s)) (length (issues a)))).
Proof.
  intros landmarks frameNumber s. split.
  - destruct (analyzeSquatPosture_trace landmarks frameNumber s)
      as (st & _ & _ & _ & E).
    eexists. eexists. split; [exact E|]. cbn [issues randomDraws clockReads].
    split; [reflexivity|]. rewrite stamp_timestamps, stamp_length.
    split; [lia | reflexivity].
  - destruct (analyzeSittingPosture_trace landmarks frameNumber s)
      as (st & _ & _ & _ & E).
    eexists. eexists. split; [exact E|]. cbn [issues randomDraws clockReads].
    split; [reflexivity|]. rewrite stamp_timestamps, stamp_length.
    split; [lia | reflexivity].
Qed.

(** ** More on variance, stability, confidence and scores *)

Lemma sum_constant (l : list Q) (c : Q) :
  Forall (fun x => x == c) l -> sum l == len l * c.
Proof.
  induction l as [|x l IH]; intros H.
  - unfold len. simpl. ring.
  - apply Forall_cons_iff in H. destruct H as [Hx Hl].
    change (sum (x :: l)) with (x + sum l).
    assert (Hlen : len (x :: l) == len l + 1).
    { unfold len. simpl length.
      rewrite Nat2Z.inj_succ, <- Z.add_1_r, inject_Z_plus. reflexivity. }
    rewrite (IH Hl), Hlen, Hx. ring.
Qed.

Lemma sum_map_zero (f : Q -> Q) (l : list Q) :
  (forall x, In x l -> f x == 0) -> sum (map f l) == 0.
Proof.
  induction l as [|x l IH]; intros H; simpl; [reflexivity|].
  rewrite (H x (or_introl eq_refl)), IH; [ring|].
  intros y Hy. apply H. right. exact Hy.
Qed.

Lemma variance_constant (l : list Q) (c : Q) :
  l <> [] -> Forall (fun x => x == c) l -> varianceOfSamples l == 0.
Proof.
  intros Hne Hc. pose proof (len_nonzero l Hne) as Hlen.
  assert (Hm : mean l == c).
  { unfold mean. rewrite (sum_constant l c Hc). field. exact Hlen. }
  unfold varianceOfSamples, squaredDeviations.
  rewrite sum_map_zero.
  - field. exact Hlen.
  - intros x Hx. rewrite Forall_forall in Hc. rewrite (Hc x Hx), Hm. ring.
Qed.

Lemma Forall_map_field (f : PostureMetrics -> Q) (g : PostureMetrics)
    (h : list PostureMetrics) :
  Forall (fun x => f x == f g) h -> Forall (fun x => x == f g) (map f h).
Proof. intros H. apply Forall_map. exact H. Qed.

(** X12.  When the history holds at least 2 frames that agree on
    [backCurvature], [shoulderAlignment] and [overallStability], the
    stability is 1. *)
Theorem stability_of_identical_frames :
  forall s f,
    (2 <= length (frameHistory s))%nat ->
    Forall (fun g => backCurvature g == backCurvature f
                     /\ shoulderAlignment g == shoulderAlignment f
                     /\ overallStability g == overallStability f)
           (frameHistory s) ->
    exists v, calculateStability s = Ok (v, s) /\ v == 1.
Proof.
  intros s f Hlen Hall.
  destruct (calculateStability_run s) as (v & E & _ & _ & Hv).
  exists v. split; [exact E|]. rewrite (Hv Hlen).
  unfold stabilityFrom, clamp.
  rewrite (variance_constant (map backCurvature (frameHistory s)) (backCurvature f)),
    (variance_constant (map shoulderAlignment (frameHistory s)) (shoulderAlignment f)),
    (variance_constant (map overallStability (frameHistory s)) (overallStability f)).
  - reflexivity.
  - apply map_nonempty. exact Hlen.
  - apply Forall_map_field. eapply Forall_impl; [|exact Hall]. intros g Hg. apply Hg.
  - apply map_nonempty. exact Hlen.
  - apply Forall_map_field. eapply Forall_impl; [|exact Hall]. intros g Hg. apply Hg.
  - apply map_nonempty. exact Hlen.
  - apply Forall_map_field. eapply Forall_impl; [|exact Hall]. intros g Hg. apply Hg.
Qed.

Lemma sum_squares_nonneg (l : list Q) (m : Q) :
  0 <= sum (map (fun x => (x - m) * (x - m)) l).
Proof.
  induction l as [|x l IH]; simpl; [lra|].
  set (d := x - m). assert (H : 0 <= d * d) by nra. lra.
Qed.

(** X13.  [calculateVariance] of a non-empty array returns a number that is
    not negative, leaving the state as it was; of an empty array it divides
    0 by 0 and yields no finite number. *)
Theorem calculateVariance_nonneg_or_not_finite :
  forall values s,
    (values = [] -> calculateVariance values s = Fault NotFinite)
    /\ (values <> [] ->
        exists v, calculateVariance values s = Ok (v, s) /\ 0 <= v).
Proof.
  intros values s. split.
  - intros ->. reflexivity.
  - intros Hne. destruct (calculateVariance_run values s Hne) as (v & E & Hv).
    exists v. split; [exact E|]. rewrite Hv.
    unfold varianceOfSamples, squaredDeviations.
    assert (Hpos : 0 < len values).
    { destruct values as [|x l]; [congruence|]. unfold len, Qlt. simpl. lia. }
    apply Qle_shift_div_l; [exact Hpos|].
    rewrite Qmult_0_l. apply sum_squares_nonneg.
Qed.

(** X14.  Up to frame 10 the confidence grows by 0.036 per frame; from
    frame 10 on it no longer depends on the frame number and equals
    [stability * 0.54 + 0.46]; and for a fixed frame number it does not
    decrease when the stability grows. *)
Theorem calculateConfidence_saturates :
  forall stability frameNumber,
    (frameNumber <= 10 ->
     calculateConfidence stability frameNumber
     == frameNumber * 0.036 + stability * 0.54 + 0.1)
    /\ (10 <= frameNumber ->
        calculateConfidence stability frameNumber == stability * 0.54 + 0.46)
    /\ (forall stability',
          stability <= stability' ->
          calculateConfidence stability frameNumber
          <= calculateConfidence stability' frameNumber).
Proof.
  intros st fn. split; [|split].
  - intros H. rewrite calculateConfidence_formula, by_ten.
    rewrite Q.min_r by lra. ring.
  - intros H. rewrite calculateConfidence_formula, by_ten.
    rewrite Q.min_l by lra. ring.
  - intros st' H. rewrite !calculateConfidence_formula. lra.
Qed.

Lemma deductIssues_sum (x : Q) (l : list PostureIssue) :
  deductIssues x l == x - 2 * sum (map severity l).
Proof.
  unfold deductIssues. revert x. induction l as [|i l IH]; intros x; simpl.
  - ring.
  - rewrite IH. ring.
Qed.

Lemma sum_Permutation (l l' : list Q) : Permutation l l' -> sum l == sum l'.
Proof.
  induction 1 as [|x l l' _ IH|x y l|l l' l'' _ IH1 _ IH2]; simpl.
  - reflexivity.
  - rewrite IH. reflexivity.
  - ring.
  - rewrite IH1. exact IH2.
Qed.

Lemma calculateSquatScore_mono (m : PostureMetrics) (l l' : list PostureIssue) :
  deductIssues 100 l <= deductIssues 100 l' ->
  calculateSquatScore m l <= calculateSquatScore m l'.
Proof.
  intros H. unfold calculateSquatScore. cbv zeta. unfold Math_max, Math_min.
  apply Q.max_le_compat_l, Q.min_le_compat_l.
  destruct (squatDepth m >? 0.7), (kneeTracking m <? 0.05),
    (backCurvature m <? 0.2), (overallStability m >? 0.8); lra.
Qed.

Lemma calculateSittingScore_mono (m : PostureMetrics) (l l' : list PostureIssue) :
  deductIssues 100 l <= deductIssues 100 l' ->
  calculateSittingScore m l <= calculateSittingScore m l'.
Proof.
  intros H. unfold calculateSittingScore. cbv zeta. unfold Math_max, Math_min.
  apply Q.max_le_compat_l, Q.min_le_compat_l.
  destruct (neckAngle m <? 15), (backCurvature m <? 0.2),
    (shoulderAlignment m <? 0.05), (overallStability m >? 0.8); lra.
Qed.

Lemma deductIssues_Permutation (l l' : list PostureIssue) :
  Permutation l l' -> deductIssues 100 l == deductIssues 100 l'.
Proof.
  intros H. rewrite !deductIssues_sum.
  rewrite (sum_Permutation _ _ (Permutation_map severity H)). reflexivity.
Qed.

(** X15.  The score of either mode does not depend on the order of the
    issues, and one more issue of non-negative severity never raises it. *)
Theorem score_order_independent_and_antitone :
  forall m,
    (forall l l',
        Permutation l l' ->
        calculateSquatScore m l == calculateSquatScore m l'
        /\ calculateSittingScore m l == calculateSittingScore m l')
    /\ (forall i l,
          0 <= severity i ->
          calculateSquatScore m (i :: l) <= calculateSquatScore m l
          /\ calculateSittingScore m (i :: l) <= calculateSittingScore m l).
Proof.
  intros m. split.
  - intros l l' H. pose proof (deductIssues_Permutation l l' H) as E.
    split; apply Qle_antisym;
      first [apply calculateSquatScore_mono | apply calculateSittingScore_mono];
      rewrite E; apply Qle_refl.
  - intros i l Hi.
    assert (H : deductIssues 100 (i :: l) <= deductIssues 100 l).
    { rewrite !deductIssues_sum. simpl. lra. }
    split; [apply calculateSquatScore_mono | apply calculateSittingScore_mono];
      exact H.
Qed.

(** ** The video caller *)





Lemma sampleRateOf_positive (d : Q) : 0.5 <= sampleRateOf d /\ d / 100 <= sampleRateOf d.
Proof.
  unfold sampleRateOf, Math_max. split; [apply Q.le_max_l | apply Q.le_max_r].
Qed.

Lemma totalSamplesOf_bound (d : Q) :
  inject_Z (totalSamplesOf d) * sampleRateOf d <= d /\ (totalSamplesOf d <= 100)%Z.
Proof.
  destruct (sampleRateOf_positive d) as [H1 H2].
  pose proof (Qfloor_le (d / sampleRateOf d)) as Hf. fold (totalSamplesOf d) in Hf.
  assert (Hr : 0 < sampleRateOf d) by lra.
  split.
  - pose proof (Qmult_le_compat_r _ _ (sampleRateOf d) Hf (Qlt_le_weak _ _ Hr)) as H.
    setoid_replace (d / sampleRateOf d * sampleRateOf d) with d in H; [exact H|].
    field. intros E. rewrite E in Hr. exact (Qlt_irrefl _ Hr).
  - unfold totalSamplesOf. rewrite <- (Qfloor_Z 100). apply Qfloor_resp_le.
    apply Qle_shift_div_r; [exact Hr|].
    assert (Hd : d / 100 == d * 0.01) by field.
    rewrite Hd in H2. change (inject_Z 100) with 100. lra.
Qed.


(** X17.  The analysis leaves the engine untouched when nothing can be
    sampled: without a file or a video element, or with a duration of 0, it
    returns before any call; and a video shorter than half a second yields
    an empty result list. *)
Theorem analyzeFullVideo_without_samples :
  forall analysisMode duration s,
    analyzeFullVideo false analysisMode duration s = Ok (None, s)
    /\ (duration == 0 -> analyzeFullVideo true analysisMode duration s = Ok (None, s))
    /\ (0 < duration < 0.5 ->
        analyzeFullVideo true analysisMode duration s = Ok (Some [], s)).
Proof.
  intros mode d s. split; [reflexivity|]. split.
  - intros H. unfold analyzeFullVideo. cbn [negb].
    rewrite (Qeq_eq_bool _ _ H). reflexivity.
  - intros [H0 H1]. unfold analyzeFullVideo. cbn [negb].
    destruct (Qeq_bool d 0) eqn:E0.
    { apply Qeq_bool_eq in E0. lra. }
    destruct (totalSamplesOf_bound d) as [Hb _].
    destruct (sampleRateOf_positive d) as [Hr _].
    assert (Hz : Z.to_nat (totalSamplesOf d) = 0%nat).
    { destruct (Z_le_gt_dec (totalSamplesOf d) 0) as [Hle|Hgt]; [lia|].
      exfalso. assert (H : 1 <= inject_Z (totalSamplesOf d)).
      { change 1 with (inject_Z 1). rewrite <- Zle_Qle. lia. }
      nra. }
    rewrite Hz. reflexivity.
Qed.

Lemma closest_fold (t : Q) (l : list VideoAnalysisResult) :
  forall (c : VideoAnalysisResult) (dmin : Q),
    let found :=
      fold_left
        (fun (best : VideoAnalysisResult * Q) result =>
           let diff := Math_abs (frameTimestamp result - t) in
           if diff <? snd best then (result, diff) else best)
        l (c, dmin) in
    (fst found = c \/ In (fst found) l)
    /\ (dmin = Math_abs (frameTimestamp c - t) ->
        snd found = Math_abs (frameTimestamp (fst found) - t))
    /\ snd found <= dmin
    /\ (forall r, In r l -> snd found <= Math_abs (frameTimestamp r - t)).
Proof using.
  induction l as [|x l IH]; intros c dmin; cbn zeta.
  - simpl. split; [left; reflexivity|]. split; [intros H; exact H|]. split; [lra|].
    intros r [].
  - cbn [fold_left snd].
    destruct (Math_abs (frameTimestamp x - t) <? dmin) eqn:E.
    + apply Qltb_lt in E.
      destruct (IH x (Math_abs (frameTimestamp x - t))) as (H1 & H2 & H3 & H4).
      cbn zeta in H1, H2, H3, H4.
      split; [destruct H1 as [->|H1]; right; [left; reflexivity | right; exact H1]|].
      split; [intros _; apply H2; reflexivity|].
      split; [lra|].
      intros r [<-|Hr]; [exact H3 | exact (H4 r Hr)].
    + apply Qltb_ge in E.
      destruct (IH c dmin) as (H1 & H2 & H3 & H4).
      cbn zeta in H1, H2, H3, H4.
      split; [destruct H1 as [->|H1]; [left; reflexivity | right; right; exact H1]|].
      split; [exact H2|]. split; [exact H3|].
      intros r [<-|Hr]; [lra | exact (H4 r Hr)].
Qed.

(** X18.  [getCurrentAnalysis] returns a result of the list that is nearest
    in time to [currentTime] and less than 2 seconds away from it; it
    returns nothing exactly when no result is that near, the empty list
    included. *)
Theorem getCurrentAnalysis_nearest :
  forall results currentTime,
    (forall r,
        getCurrentAnalysis results currentTime = Some r ->
        In r results
        /\ Qabs (frameTimestamp r - currentTime) < 2
        /\ forall r', In r' results ->
                      Qabs (frameTimestamp r - currentTime)
                      <= Qabs (frameTimestamp r' - currentTime))
    /\ (getCurrentAnalysis results currentTime = None
        <-> forall r, In r results -> 2 <= Qabs (frameTimestamp r - currentTime)).
Proof.
  intros results t. unfold getCurrentAnalysis.
  destruct results as [|first rest].
  { split; [discriminate|]. split; [intros _ r []|reflexivity]. }
  cbv zeta.
  destruct (closest_fold t (first :: rest) first
              (Math_abs (frameTimestamp first - t))) as (H1 & H2 & H3 & H4).
  cbn zeta in H1, H2, H3, H4. specialize (H2 eq_refl).
  unfold Math_abs in H1, H2, H3, H4 |- *.
  set (found := fold_left _ (first :: rest) _) in H1, H2, H3, H4 |- *.
  assert (Hin : In (fst found) (first :: rest)).
  { destruct H1 as [->|H1]; [left; reflexivity | exact H1]. }
  destruct (snd found <? 2) eqn:E.
  - apply Qltb_lt in E. split.
    + intros r Hr. injection Hr as <-. split; [exact Hin|].
      rewrite <- H2. split; [exact E | exact H4].
    + split; [discriminate|]. intros H. exfalso.
      specialize (H _ Hin). rewrite <- H2 in H. lra.
  - apply Qltb_ge in E. split; [discriminate|].
    split; [|reflexivity]. intros _ r Hr. specialize (H4 r Hr). lra.
Qed.

Lemma fold_left_plus_map {A : Type} (f : A -> Q) (l : list A) (a : Q) :
  fold_left (fun sum r => sum + f r) l a == a + sum (map f l).
Proof.
  revert a. induction l as [|x l IH]; intros a; simpl.
  - ring.
  - rewrite IH. ring.
Qed.

Lemma len_positive {A : Type} (l : list A) : l <> [] -> 0 < len l.
Proof.
  destruct l as [|x l]; [congruence|]. intros _. unfold len, Qlt. simpl. lia.
Qed.

Lemma len_cons {A : Type} (x : A) (l : list A) : len (x :: l) == len l + 1.
Proof.
  unfold len. simpl length.
  rewrite Nat2Z.inj_succ, <- Z.add_1_r, inject_Z_plus. reflexivity.
Qed.

Lemma sum_bounds (l : list Q) (lo hi : Q) :
  Forall (fun x => lo <= x <= hi) l ->
  len l * lo <= sum l <= len l * hi.
Proof.
  induction 1 as [|x l [Hlo Hhi] _ IH].
  - change (0 * lo <= 0 <= 0 * hi). lra.
  - rewrite len_cons. change (sum (x :: l)) with (x + sum l). lra.
Qed.

Lemma mean_bounds (l : list Q) (lo hi : Q) :
  l <> [] -> Forall (fun x => lo <= x <= hi) l -> lo <= sum l / len l <= hi.
Proof.
  intros Hne H. pose proof (len_positive l Hne) as Hp.
  destruct (sum_bounds l lo hi H) as [H1 H2]. split.
  - apply Qle_shift_div_l; [exact Hp|]. lra.
  - apply Qle_shift_div_r; [exact Hp|]. lra.
Qed.

Lemma filter_count_le {A : Type} (f : A -> bool) (l : list A) :
  (length (filter f l) <= length l)%nat.
Proof. induction l as [|x l IH]; simpl; [lia|]. destruct (f x); simpl; lia. Qed.

Lemma filter_all {A : Type} (f : A -> bool) (l : list A) :
  Forall (fun x => f x = true) l -> filter f l = l.
Proof.
  induction 1 as [|x l Hx _ IH]; simpl; [reflexivity|]. rewrite Hx, IH. reflexivity.
Qed.

Lemma NoDup_firstn {A : Type} (n : nat) (l : list A) : NoDup l -> NoDup (firstn n l).
Proof.
  intros H. rewrite <- (firstn_skipn n l) in H. exact (NoDup_app_remove_r _ _ H).
Qed.

(** X19.  [getOverallStats] returns nothing exactly for an empty result
    list.  Otherwise the share of good frames lies in [0,100] and is 100
    when every frame is good, the average score lies in [0,100] when every
    score does, and the top recommendations are at most 5 distinct
    strings. *)
Theorem getOverallStats_spec :
  forall results,
    (getOverallStats results = None <-> results = [])
    /\ forall st,
        getOverallStats results = Some st ->
        0 <= goodPosturePercentage st <= 100
        /\ NoDup (topRecommendations st)
        /\ (length (topRecommendations st) <= 5)%nat
        /\ (Forall (fun r => 0 <= overallScore (analysis r) <= 100) results ->
            0 <= averageScore st <= 100)
        /\ (Forall (fun r => isGoodPosture (analysis r) = true) results ->
            goodPosturePercentage st == 100).
Proof.
  intros results. unfold getOverallStats.
  destruct (Nat.eqb_spec (length results) 0) as [E|E].
  { apply length_zero_iff_nil in E. split; [split; intros _; [exact E | reflexivity]|].
    intros st H. discriminate H. }
  assert (Hne : results <> []).
  { intros ->. apply E. reflexivity. }
  split; [split; [discriminate | intros H; contradiction]|].
  intros st H. injection H as <-.
  cbn [goodPosturePercentage topRecommendations averageScore].
  pose proof (len_positive results Hne) as Hp.
  pose proof (filter_count_le (fun r => isGoodPosture (analysis r)) results) as Hg.
  assert (Hgq : 0 <= inject_Z (Z.of_nat (length (filter (fun r => isGoodPosture (analysis r)) results)))
                <= len results).
  { unfold len. rewrite <- !Zle_Qle. change 0 with (inject_Z 0). rewrite <- Zle_Qle. lia. }
  split.
  { split.
    - apply Qmult_le_0_compat; [|lra].
      apply Qle_shift_div_l; [exact Hp|]. lra.
    - assert (H : inject_Z (Z.of_nat (length (filter (fun r => isGoodPosture (analysis r)) results)))
                  / len results <= 1).
      { apply Qle_shift_div_r; [exact Hp|]. lra. }
      lra. }
  split; [exact (NoDup_firstn 5 _ (Set_spread_NoDup _ _))|].
  split; [exact (firstn_le_length 5 _)|].
  split.
  - intros Hall. rewrite fold_left_plus_map, Qplus_0_l.
    replace (len results) with (len (map (fun r => overallScore (analysis r)) results))
      by (unfold len; rewrite length_map; reflexivity).
    apply mean_bounds.
    + destruct results; [contradiction | discriminate].
    + apply Forall_map. exact Hall.
  - intros Hall. rewrite (filter_all _ _ Hall).
    fold (len results). field. intros E0. rewrite E0 in Hp. exact (Qlt_irrefl _ Hp).
Qed.

End Engine.

(** ** Concrete runs *)




Lemma calculateConfidence_monotone_witness :
  calculateConfidence 0.5 3 <= calculateConfidence 0.5 7.
Proof. apply calculateConfidence_monotone. discriminate. Defined.

(** C6 at the two metrics vectors of the claim. *)
Lemma squat_knee_rule_strict_witness :
  (exists acc s',
      squatRules clockZero (withKneeTracking 0.15) 1 (newEngine 0 0) = Ok (acc, s')
      /\ Forall (fun i => ~ isKneeValgus i /\ message i <> kneeValgusMessage)
                (fst acc))
  /\ (exists acc s',
      squatRules clockZero (withKneeTracking 0.1500001) 1 (newEngine 0 0)
      = Ok (acc, s')
      /\ Exists (fun i => isKneeValgus i /\ message i = kneeValgusMessage)
                (fst acc)).
Proof.
  split.
  - destruct (squat_knee_rule_strict clockZero (withKneeTracking 0.15) 1
                (newEngine 0 0)) as (acc & s' & E & Hn & _).
    exists acc, s'. split; [exact E|]. apply Hn. reflexivity.
  - destruct (squat_knee_rule_strict clockZero (withKneeTracking 0.1500001) 1
                (newEngine 0 0)) as (acc & s' & E & _ & Hp).
    exists acc, s'. split; [exact E|]. apply Hp. reflexivity.
Defined.

(** C7 as stated fails: the same landmarks and the same frame number, given
    twice in a row to one engine, yield two different metrics vectors when
    the random source draws 0.5 and then 0; so do two new engines that differ
    only in the draw they are about to read. *)
Lemma metrics_differ_for_same_landmarks :
  (exists a1 s1 a2 s2,
      analyzeSittingPosture clockZero randomHalfThenZero sineNearZero
        sittingObservation 0 (newEngine 0 0) = Ok (a1, s1)
      /\ analyzeSittingPosture clockZero randomHalfThenZero sineNearZero
           sittingObservation 0 s1 = Ok (a2, s2)
      /\ shoulderAlignment (metrics a1) < shoulderAlignment (metrics a2))
  /\ (exists a1 s1 a2 s2,
      analyzeSquatPosture clockZero randomHalfThenZero sineNearZero
        sittingObservation 0 (newEngine 0 0) = Ok (a1, s1)
      /\ analyzeSquatPosture clockZero randomHalfThenZero sineNearZero
           sittingObservation 0 (newEngine 0 1) = Ok (a2, s2)
      /\ shoulderAlignment (metrics a1) < shoulderAlignment (metrics a2)).
Proof.
  split.
  - eexists. eexists. eexists. eexists.
    split; [vm_compute; reflexivity|].
    split; [vm_compute; reflexivity|]. vm_compute. reflexivity.
  - eexists. eexists. eexists. eexists.
    split; [vm_compute; reflexivity|].
    split; [vm_compute; reflexivity|]. vm_compute. reflexivity.
Qed.

(** C7, amended, at two calls that differ in landmarks, frame number and
    history and read the same clock value and random draw. *)
Lemma metrics_determined_by_host_readings_witness :
  exists a1 s1' a2 s2',
    analyzeSittingPosture clockZero randomHalf sineNearZero
      sittingObservation 0 (newEngine 0 0) = Ok (a1, s1')
    /\ analyzeSittingPosture clockZero randomHalf sineNearZero
         headlessObservation 7 twoFrames = Ok (a2, s2')
    /\ metrics a1 = metrics a2.
Proof.
  apply (proj2 (metrics_determined_by_host_readings clockZero randomHalf sineNearZero
                  sittingObservation headlessObservation 0 7 (newEngine 0 0) twoFrames
                  eq_refl eq_refl)).
Defined.

(** C8 as stated fails: with the head landmark missing the sitting analysis
    returns normally and reports a neck angle of 15 degrees, and with no
    landmark at all both methods return an analysis. *)
Lemma missing_landmark_returns_analysis :
  (exists a s',
      analyzeSittingPosture clockZero randomHalf sineNearZero
        headlessObservation 0 (newEngine 0 0) = Ok (a, s')
      /\ neckAngle (metrics a) == 15)
  /\ (exists a s',
      analyzeSittingPosture clockZero randomHalf sineNearZero [] 0 (newEngine 0 0)
      = Ok (a, s'))
  /\ (exists a s',
      analyzeSquatPosture clockZero randomHalf sineNearZero [] 0 (newEngine 0 0)
      = Ok (a, s')).
Proof.
  split; [|split].
  - eexists. eexists. split; [vm_compute; reflexivity|]. vm_compute. reflexivity.
  - eexists. eexists. vm_compute. reflexivity.
  - eexists. eexists. vm_compute. reflexivity.
Qed.


(** ** Concrete runs of the further properties *)

Lemma first_call_reports_instability_witness :
  exists a s',
    analyzeSquatPosture clockZero randomHalf sineNearZero [] 0 (newEngine 0 0)
    = Ok (a, s')
    /\ (exists i, In i (issues a) /\ type i = minor
                  /\ message i = "Movement instability detected"%string)
    /\ confidence a = calculateConfidence 0.5 0.
Proof.
  exact (proj1 (first_call_reports_instability clockZero randomHalf sineNearZero
                  [] 0 (newEngine 0 0) eq_refl)).
Defined.

Lemma good_form_gives_full_score_witness :
  (exists acc s',
      squatRules clockZero deepSquat 1 (newEngine 0 0) = Ok (acc, s')
      /\ calculateSquatScore deepSquat (fst acc) == 100
      /\ goodVerdict (fst acc) (calculateSquatScore deepSquat (fst acc)) = true
      /\ ~ hasKind critical (fst acc))
  /\ (exists acc s',
      sittingRules clockZero upright 1 (newEngine 0 0) = Ok (acc, s')
      /\ calculateSittingScore upright (fst acc) == 100
      /\ goodVerdict (fst acc) (calculateSittingScore upright (fst acc)) = true
      /\ ~ hasKind critical (fst acc)
      /\ ~ hasKind warning (fst acc)).
Proof.
  split.
  - destruct (proj1 (good_form_gives_full_score clockZero deepSquat 1 (newEngine 0 0)))
      as (acc & s' & E & H).
    exists acc, s'. split; [exact E|]. apply H.
    vm_compute in E. injection E as <- _.
    eexists. split; [left; reflexivity | reflexivity].
  - destruct (proj2 (good_form_gives_full_score clockZero upright 1 (newEngine 0 0)))
      as (acc & s' & E & H).
    exists acc, s'. split; [exact E|]. apply H.
    vm_compute in E. injection E as <- _.
    eexists. split; [left; reflexivity | reflexivity].
Defined.



Lemma stability_of_identical_frames_witness :
  exists v, calculateStability steadyFrames = Ok (v, steadyFrames) /\ v == 1.
Proof.
  apply (stability_of_identical_frames steadyFrames (frame 0.1 0.01 0.9)).
  - simpl. lia.
  - repeat constructor; reflexivity.
Defined.

Lemma calculateVariance_nonneg_or_not_finite_witness :
  calculateVariance [] (newEngine 0 0) = Fault NotFinite
  /\ exists v, calculateVariance [1; 3] (newEngine 0 0) = Ok (v, newEngine 0 0)
               /\ 0 <= v.
Proof.
  split.
  - apply (proj1 (calculateVariance_nonneg_or_not_finite [] (newEngine 0 0))).
    reflexivity.
  - apply (proj2 (calculateVariance_nonneg_or_not_finite [1; 3] (newEngine 0 0))).
    discriminate.
Defined.

Lemma calculateConfidence_saturates_witness :
  calculateConfidence 0.5 4 == 4 * 0.036 + 0.5 * 0.54 + 0.1
  /\ calculateConfidence 0.5 25 == 0.5 * 0.54 + 0.46
  /\ calculateConfidence 0.5 4 <= calculateConfidence 0.75 4.
Proof.
  split; [|split].
  - apply (proj1 (calculateConfidence_saturates 0.5 4)). discriminate.
  - apply (proj1 (proj2 (calculateConfidence_saturates 0.5 25))). discriminate.
  - apply (proj2 (proj2 (calculateConfidence_saturates 0.5 4))). discriminate.
Defined.

Lemma score_order_independent_and_antitone_witness :
  calculateSquatScore deepSquat
    [mkIssue warning "a" 6 "b" 0; mkIssue minor "c" 3 "d" 0]
  == calculateSquatScore deepSquat
       [mkIssue minor "c" 3 "d" 0; mkIssue warning "a" 6 "b" 0]
  /\ calculateSittingScore upright [mkIssue critical "a" 9 "b" 0]
     <= calculateSittingScore upright [].
Proof.
  split.
  - exact (proj1 (proj1 (score_order_independent_and_antitone deepSquat)
                    [mkIssue warning "a" 6 "b" 0; mkIssue minor "c" 3 "d" 0]
                    [mkIssue minor "c" 3 "d" 0; mkIssue warning "a" 6 "b" 0]
                    (perm_swap _ _ []))).
  - refine (proj2 (proj2 (score_order_independent_and_antitone upright)
                     (mkIssue critical "a" 9 "b" 0) [] _)).
    discriminate.
Defined.


Lemma analyzeFullVideo_without_samples_witness :
  analyzeFullVideo clockZero randomHalf sineNearZero piRounded true sitting 0
    (newEngine 0 0) = Ok (None, newEngine 0 0)
  /\ analyzeFullVideo clockZero randomHalf sineNearZero piRounded true sitting 0.3
       (newEngine 0 0) = Ok (Some [], newEngine 0 0).
Proof.
  split.
  - apply (proj1 (proj2 (analyzeFullVideo_without_samples clockZero randomHalf
                           sineNearZero piRounded sitting 0 (newEngine 0 0)))).
    reflexivity.
  - apply (proj2 (proj2 (analyzeFullVideo_without_samples clockZero randomHalf
                           sineNearZero piRounded sitting 0.3 (newEngine 0 0)))).
    split; reflexivity.
Defined.

Lemma getCurrentAnalysis_nearest_witness :
  In (mkVideoResult (mkAnalysis true 100 [] upright 1 []) 1)
     [mkVideoResult (mkAnalysis true 100 [] upright 1 []) 0;
      mkVideoResult (mkAnalysis true 100 [] upright 1 []) 1;
      mkVideoResult (mkAnalysis true 100 [] upright 1 []) 2]
  /\ Qabs (1 - 1.5) < 2
  /\ getCurrentAnalysis [mkVideoResult (mkAnalysis true 100 [] upright 1 []) 0] 5
     = None.
Proof.
  split; [|split].
  - apply (proj1 (getCurrentAnalysis_nearest
                    [mkVideoResult (mkAnalysis true 100 [] upright 1 []) 0;
                     mkVideoResult (mkAnalysis true 100 [] upright 1 []) 1;
                     mkVideoResult (mkAnalysis true 100 [] upright 1 []) 2] 1.5)
             (mkVideoResult (mkAnalysis true 100 [] upright 1 []) 1)).
    reflexivity.
  - apply (proj1 (getCurrentAnalysis_nearest
                    [mkVideoResult (mkAnalysis true 100 [] upright 1 []) 0;
                     mkVideoResult (mkAnalysis true 100 [] upright 1 []) 1;
                     mkVideoResult (mkAnalysis true 100 [] upright 1 []) 2] 1.5)
             (mkVideoResult (mkAnalysis true 100 [] upright 1 []) 1)).
    reflexivity.
  - apply (proj2 (getCurrentAnalysis_nearest
                    [mkVideoResult (mkAnalysis true 100 [] upright 1 []) 0] 5)).
    intros r [<-|[]]. discriminate.
Defined.

Lemma getOverallStats_spec_witness :
  getOverallStats [] = None
  /\ exists st,
       getOverallStats
         [mkVideoResult (mkAnalysis true 100 [] upright 1 ["a"%string]) 0;
          mkVideoResult (mkAnalysis true 80 [] upright 1 ["a"%string; "b"%string]) 1]
       = Some st
       /\ goodPosturePercentage st == 100
       /\ 0 <= averageScore st <= 100
       /\ NoDup (topRecommendations st).
Proof.
  split.
  - apply (proj1 (getOverallStats_spec [])). reflexivity.
  - eexists. split; [reflexivity|].
    destruct (proj2 (getOverallStats_spec
                [mkVideoResult (mkAnalysis true 100 [] upright 1 ["a"%string]) 0;
                 mkVideoResult (mkAnalysis true 80 [] upright 1 ["a"%string; "b"%string]) 1])
                _ eq_refl) as (_ & Hnd & _ & Havg & Hgood).
    split; [apply Hgood; repeat constructor|].
    split; [apply Havg; repeat constructor; discriminate | exact Hnd].
Defined.
